(** * SNMP to MQTT bridge: poller, transformer, command translation, traps

    A shallow embedding of the polling and translation engine of the bridge
    (Go packages [domain], [service], [mqtt] and [worker]) together with the
    properties its specification states about them.

    Go values of type [interface{}] are a sum type that keeps the dynamic
    type; Go maps are finite maps ([gmap]); a [range] over a Go map receives
    the iteration order as an explicit argument because the language leaves
    it unspecified; runtime panics and returned errors are outcomes of a
    small error monad; the SNMP agent and the text functions of the Go
    standard library are interfaces the definitions are parametric in;
    goroutines are an interleaving of atomic steps. *)

From Stdlib Require Import ZArith String Ascii List Permutation.
From Stdlib Require Import DecimalString.
From Stdlib Require Import Floats.PrimFloat Floats.SpecFloat Floats.FloatOps.
From stdpp Require Import gmap strings list fin_maps.

Import ListNotations.
#[local] Set Warnings "-clear-no-such-hyp".
Local Open Scope string_scope.
Local Open Scope Z_scope.

(** ** Outcomes of Go calls: a value, a returned [error], or a runtime panic *)

Inductive go (A : Type) : Type :=
| Ret (a : A)
| Fail (e : string)
| Panic (e : string).

Arguments Ret {A} a.
Arguments Fail {A} e.
Arguments Panic {A} e.

Global Instance go_ret : MRet go := @Ret.

Global Instance go_bind : MBind go := fun A B (k : A -> go B) (c : go A) =>
  match c with
  | Ret a => k a
  | Fail e => Fail e
  | Panic e => Panic e
  end.

(** ** IEEE binary64 arithmetic as Go's [float64] *)

Module float64.

(** [float64(n)] for an integer [n]: the nearest binary64 value. *)
Definition of_Z (n : Z) : float :=
  SF2Prim (binary_normalize prec emax n 0 false).

(** [math.Round]: nearest integer, halves away from zero; zeros,
    infinities and NaN are returned as they are. *)
Definition Round (x : float) : float :=
  match Prim2SF x with
  | S754_finite s m e =>
      if 0 <=? e then x
      else
        let d := 2 ^ (- e) in
        let q := Z.pos m / d in
        let r := Z.pos m mod d in
        let n := if d <=? 2 * r then q + 1 else q in
        if n =? 0 then (if s then PrimFloat.opp PrimFloat.zero else PrimFloat.zero)
        else SF2Prim (binary_normalize prec emax (if s then - n else n) 0 false)
  | _ => x
  end.

(** [x != 0] on float64 (NaN is different from zero, -0 is not). *)
Definition nonzero (x : float) : bool := negb (PrimFloat.eqb x PrimFloat.zero).

(** The constant [0.01] as the compiler rounds it to float64. *)
Definition c0_01 : float := 0x1.47ae147ae147bp-7%float.

End float64.

(** ** Byte strings and the [strings] package *)

Module strings.

Fixpoint HasPrefix (s p : string) : bool :=
  match p, s with
  | EmptyString, _ => true
  | String a p', String b s' => if Ascii.eqb a b then HasPrefix s' p' else false
  | String _ _, EmptyString => false
  end.

(** [splitFrom sep s skip cur]: scan [s]; [cur] is the part read so far,
    [skip] counts the bytes of a separator that was just matched. *)
Fixpoint splitFrom (sep s : string) (skip : nat) (cur : string) : list string :=
  match s with
  | EmptyString => [cur]
  | String c s' =>
      match skip with
      | S k => splitFrom sep s' k cur
      | O =>
          if HasPrefix s sep
          then cur :: splitFrom sep s' (Nat.pred (String.length sep)) EmptyString
          else splitFrom sep s' O (cur ++ String c EmptyString)
      end
  end.

(** [strings.Split(s, sep)] for a non-empty separator: the parts between
    the non-overlapping occurrences of [sep], left to right. With the empty
    separator Go explodes the string into its characters; here into bytes. *)
Definition Split (s sep : string) : list string :=
  match sep with
  | EmptyString => (fun c => String c EmptyString) <$> list_ascii_of_string s
  | _ => splitFrom sep s O EmptyString
  end.

(** [strings.Join(parts, sep)]. *)
Fixpoint Join (parts : list string) (sep : string) : string :=
  match parts with
  | [] => EmptyString
  | [p] => p
  | p :: rest => p ++ sep ++ Join rest sep
  end.

Definition upperByte (c : ascii) : ascii :=
  let n := N_of_ascii c in
  if ((97 <=? n) && (n <=? 122))%N then ascii_of_N (n - 32) else c.

(** [strings.ToUpper] on the ASCII letters. No other rune has an upper
    case among the letters O, N and F, so comparing the result with
    ["ON"] or ["OFF"] is exact. *)
Fixpoint ToUpper (s : string) : string :=
  match s with
  | EmptyString => EmptyString
  | String c s' => String (upperByte c) (ToUpper s')
  end.

(** [strings.EqualFold] on the ASCII letters; exact when one side is
    ["On"] or ["Off"], whose letters fold with no rune outside ASCII. *)
Definition EqualFold (s t : string) : bool := String.eqb (ToUpper s) (ToUpper t).

End strings.

(** [fmt.Sprintf("%d", n)]. *)
Definition Sprintf_d (n : Z) : string := NilZero.string_of_int (Z.to_int n).

(** ** Dynamic values ([interface{}]) *)

Inductive value : Type :=
| VNil
| VInt (n : Z)          (* int *)
| VInt64 (n : Z)        (* int64 *)
| VUint (n : Z)         (* uint *)
| VUint32 (n : Z)       (* uint32 *)
| VUint64 (n : Z)       (* uint64 *)
| VFloat64 (f : float)  (* float64 *)
| VString (s : string)  (* string *)
| VBytes (b : string).  (* []byte *)

(** [v == nil] *)
Definition is_nil (v : value) : bool :=
  match v with VNil => true | _ => false end.

(** ** The functions of Go's standard library that parse and print text

    [strconv.ParseFloat(s, 64)], [fmt.Sscanf(s, "%d", &n)] and
    [fmt.Sscanf(s, "%f", &f)] answer [None] when they return an error;
    [TrimSpace] is [strings.TrimSpace] and [Sprint_v] is
    [fmt.Sprintf("%v", v)]. The bridge's code is parametric in them. *)

Class GoText : Type := {
  ParseFloat : string -> option float;
  Sscanf_d : string -> option Z;
  Sscanf_f : string -> option float;
  TrimSpace : string -> string;
  Sprint_v : value -> string;
}.

(** ** Package gosnmp: the part of the client library the bridge sees *)

Module gosnmp.

Inductive Asn1BER : Type :=
| OctetString | Integer | Counter32 | Counter64 | Gauge32 | TimeTicks
| Uinteger32 | ObjectIdentifier | IPAddress | Null
| NoSuchObject | NoSuchInstance | EndOfMibView | Opaque.

Global Instance Asn1BER_eq_dec : EqDecision Asn1BER.
Proof. solve_decision. Defined.

Record SnmpPDU : Type := {
  Name : string;
  Type_ : Asn1BER;
  Value : value;
}.

Inductive SnmpVersion : Type := Version1 | Version2c | Version3.

Global Instance SnmpVersion_eq_dec : EqDecision SnmpVersion.
Proof. solve_decision. Defined.

End gosnmp.

(** ** Package domain *)

Module domain.

(** [type OIDType string] *)
Definition OIDType : Type := string.
Definition OIDTypeString : OIDType := "string".
Definition OIDTypeInteger : OIDType := "integer".
Definition OIDTypeGauge : OIDType := "gauge".
Definition OIDTypeCounter : OIDType := "counter".
Definition OIDTypeBool : OIDType := "bool".
Definition OIDTypeEnum : OIDType := "enum".
Definition OIDTypeCompositeSwitch : OIDType := "composite_switch".

(** [type HAComponent string] *)
Definition HAComponent : Type := string.
Definition HAComponentSensor : HAComponent := "sensor".
Definition HAComponentBinarySensor : HAComponent := "binary_sensor".
Definition HAComponentSwitch : HAComponent := "switch".
Definition HAComponentButton : HAComponent := "button".
Definition HAComponentNumber : HAComponent := "number".
Definition HAComponentSelect : HAComponent := "select".

(** The fields of [OIDMapping] that the poller, the publisher and the
    discovery read. [EnumValues] is [None] for the nil map. *)
Record OIDMapping : Type := {
  OID : string;
  Name : string;
  Type_ : OIDType;
  Scale : float;
  HAComponent_ : HAComponent;
  EnumValues : option (gmap Z string);
  Writable : bool;
  WriteOID : string;
  PollGroup : string;
  CompositeIndex : Z;
  CompositeSeparator : string;
}.

Record Profile : Type := {
  ID : string;
  OIDMappings : list OIDMapping;
}.

(** [type SNMPVersion string] *)
Definition SNMPVersion : Type := string.
Definition SNMPv1 : SNMPVersion := "v1".
Definition SNMPv2c : SNMPVersion := "v2c".
Definition SNMPv3 : SNMPVersion := "v3".

Record Device : Type := {
  DevID : string;
  DevName : string;
  IPAddress : string;
  Port : Z;
  Community : string;
  SNMPVersion_ : SNMPVersion;
  ProfileID : string;
  PollInterval : Z;
  Enabled : bool;
  Labels : option (gmap string string);
}.

Record DeviceState : Type := {
  DeviceID : string;
  Online : bool;
  LastPoll : Z;
  Values : gmap string value;
  Errors : list string;
}.

(** [type TrapSeverity string] *)
Definition TrapSeverity : Type := string.
Definition SeverityInfo : TrapSeverity := "info".
Definition SeverityWarning : TrapSeverity := "warning".
Definition SeverityError : TrapSeverity := "error".
Definition SeverityCritical : TrapSeverity := "critical".

Record TrapLog : Type := {
  TrapID : string;
  TrapDeviceID : option string;
  SourceIP : string;
  TrapOID : string;
  Variables : gmap string value;
  Severity : TrapSeverity;
  Message : string;
  ReceivedAt : Z;
}.

(** [m[k]] with the comma-ok idiom on a possibly nil map. *)
Definition enumLookup (e : option (gmap Z string)) (k : Z) : option string :=
  match e with
  | Some m => m !! k
  | None => None
  end.

End domain.

(** ** Package service: the profile transformer *)

Module service.

(** [normalizeOID] strips one leading dot. *)
Definition normalizeOID (oid : string) : string :=
  match oid with
  | String "."%char rest => rest
  | _ => oid
  end.

Section transformer.
Context {text : GoText}.

(** [extractCompositeValue]: the field at [CompositeIndex] of a string of
    fields. [parts[i]] panics for a negative [i]. *)
Definition extractCompositeValue (v : value) (mapping : domain.OIDMapping) : go value :=
  match v with
  | VString strValue =>
      let separator :=
        if decide (domain.CompositeSeparator mapping = "") then ","
        else domain.CompositeSeparator mapping in
      let parts := strings.Split strValue separator in
      if Z.of_nat (length parts) <=? domain.CompositeIndex mapping then Ret VNil
      else if domain.CompositeIndex mapping <? 0 then Panic "index out of range"
      else
        match parts !! Z.to_nat (domain.CompositeIndex mapping) with
        | None => Panic "index out of range"
        | Some part =>
            let partValue := TrimSpace part in
            match Sscanf_d partValue with
            | Some intVal =>
                match domain.enumLookup (domain.EnumValues mapping) intVal with
                | Some name => Ret (VString name)
                | None => Ret (VInt intVal)
                end
            | None => Ret (VString partValue)
            end
        end
  | _ => Ret v
  end.

(** The type switch of [transformValue]: the raw values it converts to
    float64 ([hasNumeric]), with the converted number. *)
Definition numericValue (v : value) : option float :=
  match v with
  | VInt n | VInt64 n | VUint n | VUint64 n => Some (float64.of_Z n)
  | VFloat64 f => Some f
  | VString s => ParseFloat s
  | _ => None
  end.

Definition transformValue (v : value) (mapping : domain.OIDMapping) : go value :=
  if decide (domain.Type_ mapping = domain.OIDTypeCompositeSwitch)
  then extractCompositeValue v mapping
  else
    let scale := domain.Scale mapping in
    match (if float64.nonzero scale then numericValue v else None) with
    | Some x =>
        let scaled := PrimFloat.mul x scale in
        if PrimFloat.ltb scale float64.c0_01
        then Ret (VFloat64 (PrimFloat.div (float64.Round (PrimFloat.mul scaled 1000)) 1000))
        else Ret (VFloat64 (PrimFloat.div (float64.Round (PrimFloat.mul scaled 100)) 100))
    | None =>
        if decide (domain.Type_ mapping = domain.OIDTypeEnum)
        then
          match v with
          | VInt n | VInt64 n =>
              match domain.enumLookup (domain.EnumValues mapping) n with
              | Some name => Ret (VString name)
              | None => Ret v
              end
          | _ => Ret v
          end
        else Ret v
    end.

(** [toFloat64] of the poller. *)
Definition toFloat64 (v : value) : float :=
  match v with
  | VFloat64 f => f
  | VInt n | VInt64 n => float64.of_Z n
  | VString s => match Sscanf_f s with Some f => f | None => PrimFloat.zero end
  | _ => PrimFloat.zero
  end.

(** [values[k]] read as [interface{}]: nil when the key is absent. *)
Definition at_key (values : gmap string value) (k : string) : value :=
  default VNil (values !! k).

(** [calculateDerivedValues]: Active Power = Voltage x Total Current when
    the device reports no power. *)
Definition calculateDerivedValues (values : gmap string value) : gmap string value :=
  let activePower := toFloat64 (at_key values "Active Power") in
  if PrimFloat.eqb activePower PrimFloat.zero then
    let voltage := toFloat64 (at_key values "Voltage") in
    let current := toFloat64 (at_key values "Total Current") in
    if PrimFloat.ltb PrimFloat.zero voltage && PrimFloat.ltb PrimFloat.zero current
    then <["Active Power" :=
            VFloat64 (PrimFloat.div
                        (float64.Round (PrimFloat.mul (PrimFloat.mul voltage current) 10)) 10)]>
           values
    else values
  else values.

End transformer.


(** ** Package service: the device poller *)

(** [StateUpdateEvent]: what subscribers receive after a poll. *)
Record StateUpdateEvent : Type := {
  EvDeviceID : string;
  EvTimestamp : Z;
  EvValues : gmap string value;
  EvOnline : bool;
}.

(** The gosnmp client as the poller uses it: protocol version and whether a
    socket is dialled ([Conn != nil]). *)
Record GoSNMP : Type := {
  Version : gosnmp.SnmpVersion;
  Conn : bool;
}.

(** Modelled from the spec: [createSNMPClient] of package service is not
    among the sources. The version is chosen from the device record as the
    publisher's [createSNMPClientWithCommunity] does (v1, v3, otherwise
    v2c); the client starts without a socket. *)
Definition createSNMPClient (version : domain.SNMPVersion) : GoSNMP :=
  {| Version :=
       if decide (version = domain.SNMPv1) then gosnmp.Version1
       else if decide (version = domain.SNMPv3) then gosnmp.Version3
       else gosnmp.Version2c;
     Conn := false |}.

Record devicePoller : Type := {
  device : domain.Device;
  profile : option domain.Profile;
  client : option GoSNMP;
  pollCount : Z;
  missingOIDs : gset string;
}.

(** What the poller does on the network, in order. [EvGet] is the GET of a
    batch, [EvGetSingle] the GET of one OID after a failed SNMPv1 batch. *)
Inductive NetEvent : Type :=
| EvConnect
| EvClose
| EvGet (oids : list string)
| EvGetSingle (oid : string).

(** The world outside the poller. The agent answers the n-th network
    operation of the device's poller; [mapOrder] is the order in which the
    Go runtime enumerates a map with the given keys. *)
Record Env : Type := {
  connect : nat -> option string;
  get : nat -> list string -> string + list gosnmp.SnmpPDU;
  mapOrder : list string -> list string;
}.

(** Go promises only that a [range] visits every key once. *)
Definition range_ok (env : Env) : Prop :=
  forall keys : list string, mapOrder env keys ≡ₚ keys.

(** [int] arithmetic wraps around at 64 bits. *)
Definition wrap_int (n : Z) : Z := (n + 2 ^ 63) mod 2 ^ 64 - 2 ^ 63.

Definition sysDescr : string := ".1.3.6.1.2.1.1.1.0".
Definition sysUpTime : string := ".1.3.6.1.2.1.1.3.0".

Definition pollGroups : gmap string Z := <["frequent" := 1]> (<["static" := 10]> ∅).

(** The poll interval of a mapping's group, in poll cycles. *)
Definition groupInterval (mapping : domain.OIDMapping) : Z :=
  let group :=
    if decide (domain.PollGroup mapping = "") then "frequent"
    else domain.PollGroup mapping in
  default 1 (pollGroups !! group).

(** The set [oidSet] that [getOIDsToPoll] collects from the mappings. *)
Fixpoint collectOIDs (pollCount : Z) (missing : gset string)
    (mappings : list domain.OIDMapping) (oidSet : gset string) : gset string :=
  match mappings with
  | [] => oidSet
  | mapping :: rest =>
      if decide (Z.rem pollCount (groupInterval mapping) = 0) then
        if decide (normalizeOID (domain.OID mapping) ∈ missing)
        then collectOIDs pollCount missing rest oidSet
        else collectOIDs pollCount missing rest ({[domain.OID mapping]} ∪ oidSet)
      else collectOIDs pollCount missing rest oidSet
  end.

Definition getOIDsToPoll (env : Env) (dp : devicePoller) : list string :=
  match profile dp with
  | None => []
  | Some p =>
      mapOrder env
        (elements (collectOIDs (pollCount dp) (missingOIDs dp) (domain.OIDMappings p) ∅))
  end.

(** The OID list a poll cycle requests: the profile's, or the two base OIDs
    when that list is empty. *)
Definition oidsOfCycle (env : Env) (dp : devicePoller) : list string :=
  match getOIDsToPoll env dp with
  | [] => [sysDescr; sysUpTime]
  | oids => oids
  end.

Definition parseValue (variable : gosnmp.SnmpPDU) : go value :=
  match gosnmp.Type_ variable with
  | gosnmp.OctetString =>
      match gosnmp.Value variable with
      | VBytes b => Ret (VString b)
      | _ => Panic "interface conversion"
      end
  | gosnmp.Integer | gosnmp.Counter32 | gosnmp.Counter64 | gosnmp.Gauge32
  | gosnmp.TimeTicks | gosnmp.Uinteger32 => Ret (gosnmp.Value variable)
  | gosnmp.ObjectIdentifier =>
      match gosnmp.Value variable with
      | VString s => Ret (VString s)
      | _ => Panic "interface conversion"
      end
  | gosnmp.NoSuchObject | gosnmp.NoSuchInstance => Ret VNil
  | gosnmp.Null => Ret VNil
  | _ => Ret (gosnmp.Value variable)
  end.

(** [oidToMappings]: normalized OID to the mappings that use it, in profile
    order. *)
Definition buildOidToMappings (p : option domain.Profile)
    : gmap string (list domain.OIDMapping) :=
  match p with
  | None => ∅
  | Some p =>
      foldl (fun acc mapping =>
               let normalizedOID := normalizeOID (domain.OID mapping) in
               <[normalizedOID := (default [] (acc !! normalizedOID) ++ [mapping])%list]> acc)
            ∅ (domain.OIDMappings p)
  end.

(** [batchesOf n oids]: the slices [oids[i:end]] of the batching loop. *)
Fixpoint chunks (fuel n : nat) (oids : list string) : list (list string) :=
  match fuel, oids with
  | S fuel', _ :: _ => take n oids :: chunks fuel' n (drop n oids)
  | _, _ => []
  end.

Definition batchesOf (n : nat) (oids : list string) : list (list string) :=
  chunks (length oids) n oids.

Definition batchSize (c : GoSNMP) : nat :=
  if decide (Version c = gosnmp.Version1) then 1%nat else 10%nat.

(** The variables of one poll cycle. *)
Record Cycle : Type := {
  cyConn : bool;
  cyValues : gmap string value;
  cyErrors : list string;
  cyMissing : gset string;
  cyTrace : list NetEvent;
}.

Definition record (e : NetEvent) (c : Cycle) : Cycle :=
  {| cyConn := cyConn c; cyValues := cyValues c; cyErrors := cyErrors c;
     cyMissing := cyMissing c; cyTrace := (cyTrace c ++ [e])%list |}.

Definition setConn (b : bool) (c : Cycle) : Cycle :=
  {| cyConn := b; cyValues := cyValues c; cyErrors := cyErrors c;
     cyMissing := cyMissing c; cyTrace := cyTrace c |}.

Definition setValues (v : gmap string value) (c : Cycle) : Cycle :=
  {| cyConn := cyConn c; cyValues := v; cyErrors := cyErrors c;
     cyMissing := cyMissing c; cyTrace := cyTrace c |}.

Definition addError (e : string) (c : Cycle) : Cycle :=
  {| cyConn := cyConn c; cyValues := cyValues c; cyErrors := (cyErrors c ++ [e])%list;
     cyMissing := cyMissing c; cyTrace := cyTrace c |}.

Definition addMissing (oid : string) (c : Cycle) : Cycle :=
  {| cyConn := cyConn c; cyValues := cyValues c; cyErrors := cyErrors c;
     cyMissing := {[oid]} ∪ cyMissing c; cyTrace := cyTrace c |}.

(** [if dp.client.Conn != nil { Close(); Conn = nil }] *)
Definition closeConn (c : Cycle) : Cycle :=
  if cyConn c then setConn false (record EvClose c) else c.



(** The mapping is requested in the cycle with this poll count unless its
    OID is known to be missing. *)
Definition due (pollCount : Z) (mapping : domain.OIDMapping) : Prop :=
  Z.rem pollCount (groupInterval mapping) = 0.

Section poller.
Context {text : GoText}.

(** [for _, mapping := range mappings { values[mapping.Name] = transformValue(value, mapping) }] *)
Fixpoint applyMappings (v : value) (mappings : list domain.OIDMapping)
    (values : gmap string value) : go (gmap string value) :=
  match mappings with
  | [] => Ret values
  | mapping :: rest =>
      transformedValue ← transformValue v mapping;
      applyMappings v rest (<[domain.Name mapping := transformedValue]> values)
  end.

(** The writes for one decoded binding: every mapping of its OID, then the
    raw value under the binding's own name. *)
Definition storeBinding (oidToMappings : gmap string (list domain.OIDMapping))
    (variable : gosnmp.SnmpPDU) (v : value) (values : gmap string value)
    : go (gmap string value) :=
  values' ← match oidToMappings !! normalizeOID (gosnmp.Name variable) with
            | Some mappings => applyMappings v mappings values
            | None => Ret values
            end;
  Ret (<[gosnmp.Name variable := v]> values').

(** One binding of a batch response (the loop over [result.Variables]). *)
Definition processVariable (oidToMappings : gmap string (list domain.OIDMapping))
    (variable : gosnmp.SnmpPDU) (c : Cycle) : go Cycle :=
  let normalizedOID := normalizeOID (gosnmp.Name variable) in
  if decide (gosnmp.Type_ variable = gosnmp.NoSuchInstance
             ∨ gosnmp.Type_ variable = gosnmp.NoSuchObject)
  then
    if decide (normalizedOID ∈ cyMissing c) then Ret c
    else Ret (addMissing normalizedOID c)
  else
    v ← parseValue variable;
    if is_nil v then Ret c
    else
      values' ← storeBinding oidToMappings variable v (cyValues c);
      Ret (setValues values' c).

(** One binding of a single-OID response in the SNMPv1 fallback. *)
Definition processSingleVariable (oidToMappings : gmap string (list domain.OIDMapping))
    (variable : gosnmp.SnmpPDU) (c : Cycle) : go Cycle :=
  v ← parseValue variable;
  if is_nil v then Ret c
  else
    values' ← storeBinding oidToMappings variable v (cyValues c);
    Ret (setValues values' c).

Fixpoint forEach {A : Type} (f : A -> Cycle -> go Cycle) (l : list A) (c : Cycle) : go Cycle :=
  match l with
  | [] => Ret c
  | x :: rest => c' ← f x c; forEach f rest c'
  end.

(** The SNMPv1 fallback for one OID of a failed batch. *)
Definition pollSingle (env : Env) (base : nat)
    (oidToMappings : gmap string (list domain.OIDMapping))
    (singleOID : string) (c : Cycle) : go Cycle :=
  let c1 := record (EvGetSingle singleOID) c in
  match get env (base + length (cyTrace c)) [singleOID] with
  | inl _ => Ret c1
  | inr variables => forEach (processSingleVariable oidToMappings) variables c1
  end.

(** One iteration of the batching loop. [base] is the number of network
    operations before this cycle. *)
Definition pollBatch (env : Env) (base : nat) (version : gosnmp.SnmpVersion)
    (oidToMappings : gmap string (list domain.OIDMapping))
    (batchOIDs : list string) (c : Cycle) : go Cycle :=
  let c1 := record (EvGet batchOIDs) c in
  match get env (base + length (cyTrace c)) batchOIDs with
  | inl err =>
      if decide (version = gosnmp.Version1) then
        let c2 := closeConn c1 in
        let c3 := record EvConnect c2 in
        match connect env (base + length (cyTrace c2)) with
        | Some connErr => Ret (addError connErr c3)
        | None => forEach (pollSingle env base oidToMappings) batchOIDs (setConn true c3)
        end
      else Ret (closeConn (addError err c1))
  | inr variables => forEach (processVariable oidToMappings) variables c1
  end.

(** The arguments of the [updateState] call that ends a poll cycle. *)
Record PollResult : Type := {
  prValues : option (gmap string value);
  prOnline : bool;
  prErrors : list string;
}.

(** [doPoll] up to its call of [updateState]: the poller after the cycle,
    the network operations of the cycle, and what is handed to
    [updateState]. [base] network operations precede the cycle. The
    best-effort update of the device's last-seen time that follows is
    outside the model. *)
Definition doPoll (env : Env) (base : nat) (dp : devicePoller)
    : go (devicePoller * list NetEvent * PollResult) :=
  let pollCount' := wrap_int (pollCount dp + 1) in
  let cl := match client dp with
            | Some c => c
            | None => createSNMPClient (domain.SNMPVersion_ (device dp))
            end in
  let dp1 := {| device := device dp; profile := profile dp; client := Some cl;
                pollCount := pollCount'; missingOIDs := missingOIDs dp |} in
  let start := {| cyConn := Conn cl; cyValues := ∅; cyErrors := [];
                  cyMissing := missingOIDs dp; cyTrace := [] |} in
  let connected :=
    if Conn cl then inr start
    else match connect env base with
         | Some err => inl err
         | None => inr (setConn true (record EvConnect start))
         end in
  match connected with
  | inl err =>
      Ret (dp1, [EvConnect],
           {| prValues := None; prOnline := false; prErrors := [err] |})
  | inr c0 =>
      let oids := oidsOfCycle env dp1 in
      let oidToMappings := buildOidToMappings (profile dp) in
      c ← forEach (pollBatch env base (Version cl) oidToMappings)
                  (batchesOf (batchSize cl) oids) c0;
      let values := calculateDerivedValues (cyValues c) in
      Ret ({| device := device dp; profile := profile dp;
              client := Some {| Version := Version cl; Conn := cyConn c |};
              pollCount := pollCount'; missingOIDs := cyMissing c |},
           cyTrace c,
           {| prValues := Some values;
              prOnline := bool_decide (cyErrors c = []);
              prErrors := cyErrors c |})
  end.

End poller.

(** ** Package service: the state store and the event bus *)

(** The service's shared tables. [devices] maps a device id to its poller,
    a pointer in Go and here the index of the goroutine that owns it.
    A subscriber is a buffered channel of capacity 100, oldest event
    first. *)
Record PollerService : Type := {
  devices : gmap string nat;
  states : gmap string domain.DeviceState;
  subscribers : list (list StateUpdateEvent);
}.

Definition NewPollerService : PollerService :=
  {| devices := ∅; states := ∅; subscribers := [] |}.

(** [select { case ch <- event: default: }] on a channel of capacity 100. *)
Definition trySend (event : StateUpdateEvent) (ch : list StateUpdateEvent)
    : list StateUpdateEvent :=
  if (length ch <? 100)%nat then (ch ++ [event])%list else ch.

(** [&domain.DeviceState{DeviceID: id, Values: make(...)}] *)
Definition newState (deviceID : string) : domain.DeviceState :=
  {| domain.DeviceID := deviceID; domain.Online := false; domain.LastPoll := 0;
     domain.Values := ∅; domain.Errors := [] |}.

(** [updateState]: merge the poll's values into the device's state (the
    loop [state.Values[k] = v] is the union that prefers [values]), copy the
    whole map into an event, and offer the event to every subscriber.
    Returns the service and the event. [tPoll] and [tEvent] are the two
    readings of the clock. *)
Definition updateState (s : PollerService) (deviceID : string)
    (values : option (gmap string value)) (online : bool) (errors : list string)
    (tPoll tEvent : Z) : PollerService * StateUpdateEvent :=
  let state := default (newState deviceID) (states s !! deviceID) in
  let merged :=
    match values with
    | Some vs => vs ∪ domain.Values state
    | None => domain.Values state
    end in
  let state' := {| domain.DeviceID := domain.DeviceID state; domain.Online := online;
                   domain.LastPoll := tPoll; domain.Values := merged;
                   domain.Errors := errors |} in
  let fullValues := merged in
  let event := {| EvDeviceID := deviceID; EvTimestamp := tEvent;
                  EvValues := fullValues; EvOnline := online |} in
  ({| devices := devices s;
      states := <[deviceID := state']> (states s);
      subscribers := trySend event <$> subscribers s |},
   event).

(** The part of [RemoveDevice] that touches the state table. *)
Definition deleteState (s : PollerService) (id : string) : PollerService :=
  {| devices := devices s; states := delete id (states s); subscribers := subscribers s |}.

(** The part of [AddDevice] that touches the state table. *)
Definition initState (s : PollerService) (id : string) : PollerService :=
  {| devices := devices s; states := <[id := newState id]> (states s);
     subscribers := subscribers s |}.

(** [Subscribe] *)
Definition Subscribe (s : PollerService) : PollerService :=
  {| devices := devices s; states := states s;
     subscribers := (subscribers s ++ [[]])%list |}.

(** Operations on the state table, as the poll loops and the device
    management interleave them. *)
Inductive StoreOp : Type :=
| OpUpdate (deviceID : string) (values : option (gmap string value))
    (online : bool) (errors : list string) (tPoll tEvent : Z)
| OpInit (id : string)
| OpDelete (id : string).

(** Run the operations; the events are those [updateState] built, oldest
    first. *)
Fixpoint runStore (s : PollerService) (ops : list StoreOp)
    : PollerService * list StateUpdateEvent :=
  match ops with
  | [] => (s, [])
  | OpUpdate id values online errors tPoll tEvent :: rest =>
      let '(s1, event) := updateState s id values online errors tPoll tEvent in
      let '(s2, events) := runStore s1 rest in
      (s2, event :: events)
  | OpInit id :: rest => runStore (initState s id) rest
  | OpDelete id :: rest => runStore (deleteState s id) rest
  end.

(** The operation leaves the state of device [id] in place. *)
Definition keeps (id : string) (op : StoreOp) : Prop :=
  match op with
  | OpUpdate _ _ _ _ _ _ => True
  | OpInit id' | OpDelete id' => id' ≠ id
  end.

(** The keys a poll wrote for device [id]. *)
Definition keysWritten (id : string) (op : StoreOp) : gset string :=
  match op with
  | OpUpdate id' (Some vs) _ _ _ _ => if decide (id' = id) then dom vs else ∅
  | _ => ∅
  end.

(** The accumulated values of a device. *)
Definition valuesOf (s : PollerService) (id : string) : gmap string value :=
  match states s !! id with
  | Some state => domain.Values state
  | None => ∅
  end.

(** ** The poll loops as an interleaving of atomic steps *)

(** Where a device's goroutine stands: inside [doPoll] before its call of
    [updateState], blocked in the [select] of [pollDevice], or returned. *)
Inductive Pc : Type := InPoll | Waiting | Exited.

Record Routine : Type := {
  rDp : devicePoller;
  rPc : Pc;
  rStop : bool;       (* stopCh is closed *)
  rNet : nat;         (* network operations so far *)
}.

Record System : Type := {
  svc : PollerService;
  routines : list Routine;
  emitted : list StateUpdateEvent;   (* every event built so far, oldest first *)
}.

Definition initial : System :=
  {| svc := NewPollerService; routines := []; emitted := [] |}.

Inductive Action : Type :=
| ActAddDevice (d : domain.Device) (p : option domain.Profile)
| ActRemoveDevice (id : string)
| ActFinishPoll (h : nat) (env : Env) (tPoll tEvent : Z)
| ActWake (h : nat)
| ActExit (h : nat).

Definition setRoutine (h : nat) (r : Routine) (sys : System) : System :=
  {| svc := svc sys; routines := <[h := r]> (routines sys); emitted := emitted sys |}.

Section system.
Context {text : GoText}.

(** [AddDevice]: nothing when the id is present; otherwise register the
    poller, reset the device's state and start its goroutine, which begins
    with the initial poll. [p] is what the profile repository returned. *)
Definition AddDevice (sys : System) (d : domain.Device) (p : option domain.Profile)
    : System :=
  match devices (svc sys) !! domain.DevID d with
  | Some _ => sys
  | None =>
      let dp := {| device := d; profile := p; client := None; pollCount := 0;
                   missingOIDs := ∅ |} in
      let h := length (routines sys) in
      let s1 := {| devices := <[domain.DevID d := h]> (devices (svc sys));
                   states := states (svc sys);
                   subscribers := subscribers (svc sys) |} in
      {| svc := initState s1 (domain.DevID d);
         routines := (routines sys ++ [{| rDp := dp; rPc := InPoll; rStop := false;
                                          rNet := O |}])%list;
         emitted := emitted sys |}
  end.

(** [RemoveDevice]: close the stop channel, forget the poller, delete the
    state. It returns without waiting for the goroutine. The two critical
    sections are taken as one step. *)
Definition RemoveDevice (sys : System) (id : string) : System :=
  let sys1 :=
    match devices (svc sys) !! id with
    | Some h =>
        let rs := match routines sys !! h with
                  | Some r => <[h := {| rDp := rDp r; rPc := rPc r; rStop := true;
                                        rNet := rNet r |}]> (routines sys)
                  | None => routines sys
                  end in
        {| svc := {| devices := delete id (devices (svc sys));
                     states := states (svc sys);
                     subscribers := subscribers (svc sys) |};
           routines := rs; emitted := emitted sys |}
    | None => sys
    end in
  {| svc := deleteState (svc sys1) id; routines := routines sys1;
     emitted := emitted sys1 |}.

(** One atomic step. [ActFinishPoll] runs the rest of a [doPoll] that is in
    flight, up to and including [updateState]; a panic ends the program
    ([None]). [ActWake] is the [select] taking the ticker or the trigger,
    which Go may choose even when the stop channel is ready as well;
    [ActExit] is the [select] taking the closed stop channel. *)
Definition step (sys : System) (a : Action) : option System :=
  match a with
  | ActAddDevice d p => Some (AddDevice sys d p)
  | ActRemoveDevice id => Some (RemoveDevice sys id)
  | ActFinishPoll h env tPoll tEvent =>
      match routines sys !! h with
      | Some r =>
          match rPc r with
          | InPoll =>
              match doPoll env (rNet r) (rDp r) with
              | Ret (dp', trace, res) =>
                  let '(s', event) :=
                    updateState (svc sys) (domain.DevID (device (rDp r)))
                                (prValues res) (prOnline res) (prErrors res)
                                tPoll tEvent in
                  Some {| svc := s';
                          routines := <[h := {| rDp := dp'; rPc := Waiting;
                                                rStop := rStop r;
                                                rNet := (rNet r + length trace)%nat |}]>
                                        (routines sys);
                          emitted := (emitted sys ++ [event])%list |}
              | _ => None
              end
          | _ => None
          end
      | None => None
      end
  | ActWake h =>
      match routines sys !! h with
      | Some r =>
          match rPc r with
          | Waiting => Some (setRoutine h {| rDp := rDp r; rPc := InPoll;
                                             rStop := rStop r; rNet := rNet r |} sys)
          | _ => None
          end
      | None => None
      end
  | ActExit h =>
      match routines sys !! h with
      | Some r =>
          match rPc r, rStop r with
          | Waiting, true => Some (setRoutine h {| rDp := rDp r; rPc := Exited;
                                                   rStop := true; rNet := rNet r |} sys)
          | _, _ => None
          end
      | None => None
      end
  end.


End system.

End service.

(** ** Package mqtt: discovery options and command translation *)

Module mqtt.

(** The entries of [EnumValues] in the order a [range] visits them;
    [order] is the runtime's choice for this map. *)
Definition rangeEnum (order : list (Z * string) -> list (Z * string))
    (e : option (gmap Z string)) : list (Z * string) :=
  match e with
  | Some m => order (map_to_list m)
  | None => []
  end.

(** [for i := 1; i <= len(m); i++ { if v, ok := m[i]; ok { append } }] *)
Definition sequenceOptions (m : gmap Z string) : list string :=
  omap (fun i : nat => m !! Z.of_nat i) (seq 1 (size m)).

(** [for _, v := range m { if v is not among options { append } }] *)
Definition addRemaining (entries : list (Z * string)) (options : list string)
    : list string :=
  foldl (fun opts kv => if decide (kv.2 ∈ opts) then opts else (opts ++ [kv.2])%list)
        options entries.

(** The [options] that [PublishDevice] puts in the discovery document of a
    select mapping; [None] when [EnumValues] is nil and the field stays
    unset. *)
Definition selectOptions (order : list (Z * string) -> list (Z * string))
    (mapping : domain.OIDMapping) : option (list string) :=
  match domain.EnumValues mapping with
  | Some m => Some (addRemaining (order (map_to_list m)) (sequenceOptions m))
  | None => None
  end.

(** The first entry of the [range] whose label folds to [label]. *)
Fixpoint firstLabelled (label : string) (entries : list (Z * string)) : option Z :=
  match entries with
  | [] => None
  | (k, v) :: rest =>
      if strings.EqualFold v label then Some k else firstLabelled label rest
  end.

(** The loop over [EnumValues] shared by both switch conversions: it
    returns at the first entry labelled On when the payload is ON, or
    labelled Off when the payload is OFF. *)
Fixpoint switchKey (payloadUpper : string) (entries : list (Z * string)) : option Z :=
  match entries with
  | [] => None
  | (k, v) :: rest =>
      if strings.EqualFold v "On" && bool_decide (payloadUpper = "ON") then Some k
      else if strings.EqualFold v "Off" && bool_decide (payloadUpper = "OFF") then Some k
      else switchKey payloadUpper rest
  end.

Section commands.
Context {text : GoText}.
Variable order : list (Z * string) -> list (Z * string).

Definition convertPayloadToSNMPValue (payload : string) (mapping : domain.OIDMapping)
    : go value :=
  let payloadUpper := strings.ToUpper payload in
  if decide (domain.HAComponent_ mapping = domain.HAComponentSwitch) then
    match switchKey payloadUpper (rangeEnum order (domain.EnumValues mapping)) with
    | Some k => Ret (VInt k)
    | None => if decide (payloadUpper = "ON") then Ret (VInt 1) else Ret (VInt 2)
    end
  else if decide (domain.HAComponent_ mapping = domain.HAComponentSelect) then
    match firstLabelled payload (rangeEnum order (domain.EnumValues mapping)) with
    | Some k => Ret (VInt k)
    | None => Fail ("unknown select value: " ++ payload)
    end
  else if decide (domain.HAComponent_ mapping = domain.HAComponentNumber) then
    match Sscanf_d payload with
    | Some val => Ret (VInt val)
    | None => Fail ("invalid number: " ++ payload)
    end
  else Ret (VString payload).

(** The field value a composite switch command writes at its index. *)
Definition compositeNewValue (payload : string) (mapping : domain.OIDMapping) : string :=
  let payloadUpper := strings.ToUpper payload in
  let newValue :=
    match switchKey payloadUpper (rangeEnum order (domain.EnumValues mapping)) with
    | Some k => Sprintf_d k
    | None => ""
    end in
  if decide (newValue = "") then
    if decide (payloadUpper = "ON") then "1" else "0"
  else newValue.

(** [convertCompositePayloadToSNMPValue]; [current] is what
    [readSNMPValue] returned for the mapping's OID. *)
Definition convertCompositePayloadToSNMPValue (current : go value) (payload : string)
    (mapping : domain.OIDMapping) : go string :=
  let newValue := compositeNewValue payload mapping in
  match current with
  | Ret (VString currentStr) =>
      let separator :=
        if decide (domain.CompositeSeparator mapping = "") then ","
        else domain.CompositeSeparator mapping in
      let parts := strings.Split currentStr separator in
      if Z.of_nat (length parts) <=? domain.CompositeIndex mapping
      then Fail "composite index out of range"
      else if domain.CompositeIndex mapping <? 0 then Panic "index out of range"
      else Ret (strings.Join (<[Z.to_nat (domain.CompositeIndex mapping) := newValue]> parts)
                             separator)
  | Ret _ => Fail "current value is not a string"
  | Fail e => Fail ("failed to read current value: " ++ e)
  | Panic e => Panic e
  end.

(** [handleCommand] from the mapping it found to the SET it sends: the
    OID and the value, or the reason the command is dropped. *)
Definition handleCommand (mapping : domain.OIDMapping) (payload : string)
    (current : go value) : go (string * value) :=
  if negb (domain.Writable mapping) then Fail "mapping is not writable"
  else
    let writeOID :=
      if decide (domain.WriteOID mapping = "") then domain.OID mapping
      else domain.WriteOID mapping in
    let payloadStr := TrimSpace payload in
    snmpValue ←
      (if decide (domain.Type_ mapping = domain.OIDTypeCompositeSwitch)
       then s ← convertCompositePayloadToSNMPValue current payloadStr mapping;
            Ret (VString s)
       else convertPayloadToSNMPValue payloadStr mapping);
    Ret (writeOID, snmpValue).

End commands.

End mqtt.

(** ** Package worker: the trap receiver *)

Module worker.

Definition determineSeverity (trapOID : string) (variables : gmap string value)
    : domain.TrapSeverity :=
  if bool_decide (trapOID ∈ [".1.3.6.1.4.1.318.2.3.1"; ".1.3.6.1.4.1.318.2.3.5"])
  then domain.SeverityCritical
  else if bool_decide (trapOID ∈ [".1.3.6.1.4.1.318.2.3.2"; ".1.3.6.1.4.1.318.2.3.4"])
  then domain.SeverityWarning
  else domain.SeverityInfo.

Definition formatMessage (trapOID : string) (variables : gmap string value) : string :=
  if decide (trapOID = ".1.3.6.1.4.1.318.2.3.1") then "UPS on battery power"
  else if decide (trapOID = ".1.3.6.1.4.1.318.2.3.2") then "UPS returned to utility power"
  else if decide (trapOID = ".1.3.6.1.4.1.318.2.3.5") then "UPS battery low"
  else if decide (trapOID = ".1.3.6.1.4.1.318.2.3.4") then "Communication lost with UPS"
  else if (0 <? size variables)%nat
  then "Trap " ++ trapOID ++ " with " ++ Sprintf_d (Z.of_nat (size variables)) ++ " variables"
  else "Trap " ++ trapOID.

Definition snmpTrapOID : string := ".1.3.6.1.6.3.1.1.4.1.0".

Section traps.
Context {text : GoText}.

Definition parseVariable (variable : gosnmp.SnmpPDU) : go value :=
  match gosnmp.Type_ variable with
  | gosnmp.OctetString =>
      match gosnmp.Value variable with
      | VBytes b => Ret (VString b)
      | _ => Panic "interface conversion"
      end
  | gosnmp.Integer | gosnmp.Counter32 | gosnmp.Counter64 | gosnmp.Gauge32
  | gosnmp.TimeTicks | gosnmp.Uinteger32 => Ret (gosnmp.Value variable)
  | gosnmp.ObjectIdentifier =>
      match gosnmp.Value variable with
      | VString s => Ret (VString s)
      | _ => Panic "interface conversion"
      end
  | gosnmp.IPAddress =>
      match gosnmp.Value variable with
      | VString ip => Ret (VString ip)
      | v => Ret (VString (Sprint_v v))
      end
  | _ => Ret (VString (Sprint_v (gosnmp.Value variable)))
  end.

(** The loop of [handleTrap] over the packet's bindings: the trap OID and
    the other variables. *)
Fixpoint scanVariables (vars : list gosnmp.SnmpPDU) (trapOID : string)
    (variables : gmap string value) : go (string * gmap string value) :=
  match vars with
  | [] => Ret (trapOID, variables)
  | variable :: rest =>
      v ← parseVariable variable;
      if decide (gosnmp.Name variable = snmpTrapOID) then
        match v with
        | VString oid => scanVariables rest oid variables
        | _ => scanVariables rest trapOID variables
        end
      else scanVariables rest trapOID (<[gosnmp.Name variable := v]> variables)
  end.

(** The first device with the trap's source address. *)
Definition findDevice (devices : list domain.Device) (ip : string) : option string :=
  domain.DevID <$> List.find (fun d => bool_decide (domain.IPAddress d = ip)) devices.

(** [handleTrap]: the [TrapLog] built for a packet. [devices] is the answer
    of the device repository ([None] on error), [id] the fresh UUID and
    [now] the clock. *)
Definition handleTrap (devices : option (list domain.Device))
    (packet : list gosnmp.SnmpPDU) (ip : string) (id : string) (now : Z)
    : go domain.TrapLog :=
  let deviceID := match devices with
                  | Some ds => findDevice ds ip
                  | None => None
                  end in
  '(trapOID, variables) ← scanVariables packet "" ∅;
  Ret {| domain.TrapID := id; domain.TrapDeviceID := deviceID; domain.SourceIP := ip;
         domain.TrapOID := trapOID; domain.Variables := variables;
         domain.Severity := determineSeverity trapOID variables;
         domain.Message := formatMessage trapOID variables;
         domain.ReceivedAt := now |}.

End traps.

End worker.

(** ** A text library to run the examples with

    Plain decimal notation only: an optional sign, digits, and for
    [ParseFloat] an optional fraction, converted when the digits fit the
    53-bit mantissa; trimming of ASCII white space; [%v] of integers and
    strings. *)

Module sample.

Definition digit (c : ascii) : option Z :=
  let n := Z.of_N (N_of_ascii c) in
  if (48 <=? n) && (n <=? 57) then Some (n - 48) else None.

(** Longest prefix of digits: its value, its length, and the rest. *)
Fixpoint digits (s : string) (acc : Z) (len : nat) : Z * nat * string :=
  match s with
  | String c s' =>
      match digit c with
      | Some d => digits s' (10 * acc + d) (S len)
      | None => (acc, len, s)
      end
  | EmptyString => (acc, len, s)
  end.

Definition signed (s : string) : bool * string :=
  match s with
  | String "-"%char s' => (true, s')
  | String "+"%char s' => (false, s')
  | _ => (false, s)
  end.

Definition isSpace (c : ascii) : bool :=
  let n := N_of_ascii c in
  (((9 <=? n) && (n <=? 13)) || (n =? 32))%N.

Fixpoint trimLeft (s : string) : string :=
  match s with
  | String c s' => if isSpace c then trimLeft s' else s
  | EmptyString => s
  end.

Definition rev_string (s : string) : string :=
  string_of_list_ascii (rev (list_ascii_of_string s)).

Definition trim (s : string) : string :=
  rev_string (trimLeft (rev_string (trimLeft s))).

Definition scan_d (s : string) : option Z :=
  let '(neg, body) := signed (trimLeft s) in
  let '(n, len, _) := digits body 0 O in
  if decide (len = O) then None
  else
    let v := if neg then - n else n in
    if (- 2 ^ 63 <=? v) && (v <? 2 ^ 63) then Some v else None.

Definition parse_float (s : string) : option float :=
  let '(neg, body) := signed s in
  let '(n, len, rest) := digits body 0 O in
  let sign (f : float) := if neg then PrimFloat.opp f else f in
  if decide (len = O) then None
  else
    match rest with
    | EmptyString => if n <? 2 ^ 53 then Some (sign (float64.of_Z n)) else None
    | String "."%char frac =>
        let '(m, flen, rest') := digits frac n O in
        match rest' with
        | EmptyString =>
            if (m <? 2 ^ 53) && (Nat.leb flen 22)
            then Some (sign (PrimFloat.div (float64.of_Z m) (float64.of_Z (10 ^ Z.of_nat flen))))
            else None
        | _ => None
        end
    | _ => None
    end.

Definition text : GoText := {|
  ParseFloat := parse_float;
  Sscanf_d := scan_d;
  Sscanf_f := parse_float;
  TrimSpace := trim;
  Sprint_v := fun v =>
    match v with
    | VInt n | VInt64 n | VUint n | VUint32 n | VUint64 n => Sprintf_d n
    | VString s => s
    | _ => "<nil>"
    end;
|}.

(** *** Sample devices, profiles and agents *)

Definition mapping (oid name : string) (type : domain.OIDType) (scale : float)
    (component : domain.HAComponent) (enum : option (gmap Z string))
    (group : string) (index : Z) : domain.OIDMapping :=
  {| domain.OID := oid; domain.Name := name; domain.Type_ := type;
     domain.Scale := scale; domain.HAComponent_ := component;
     domain.EnumValues := enum; domain.Writable := true; domain.WriteOID := "";
     domain.PollGroup := group; domain.CompositeIndex := index;
     domain.CompositeSeparator := "" |}.

Definition onOff : gmap Z string := <[1 := "On"]> (<[2 := "Off"]> ∅).

(** A voltage reported in tenths of a volt. *)
Definition voltage : domain.OIDMapping :=
  mapping ".1.3.6.1.4.1.318.1.1.1.3.2.1.0" "Voltage" domain.OIDTypeGauge
          0x1.999999999999ap-4%float domain.HAComponentSensor None "" 0.


(** The sixth outlet of a composite status string. *)
Definition outlet6 : domain.OIDMapping :=
  mapping ".1.3.6.1.4.1.17420.1.2.9.1.13.0" "Outlet 6" domain.OIDTypeCompositeSwitch
          0%float domain.HAComponentSwitch (Some (<[1 := "On"]> (<[0 := "Off"]> ∅))) "" 5.

(** The second outlet of a composite status string. *)
Definition outlet2 : domain.OIDMapping :=
  mapping ".1.3.6.1.4.1.17420.1.2.9.1.13.0" "Outlet 2" domain.OIDTypeCompositeSwitch
          0%float domain.HAComponentSwitch (Some (<[1 := "On"]> (<[0 := "Off"]> ∅))) "" 1.

Definition device (id version : string) : domain.Device :=
  {| domain.DevID := id; domain.DevName := id; domain.IPAddress := "10.0.0.7";
     domain.Port := 161; domain.Community := "public";
     domain.SNMPVersion_ := version; domain.ProfileID := "";
     domain.PollInterval := 0; domain.Enabled := true; domain.Labels := None |}.

Definition pduProfile : domain.Profile :=
  {| domain.ID := "energenie"; domain.OIDMappings := [outlet2; outlet6] |}.

Definition octets (name content : string) : gosnmp.SnmpPDU :=
  {| gosnmp.Name := name; gosnmp.Type_ := gosnmp.OctetString;
     gosnmp.Value := VBytes content |}.


(** An agent that answers every OID with the status of two outlets. *)
Definition twoOutlets : service.Env :=
  {| service.connect := fun _ => None;
     service.get := fun _ oids => inr ((fun oid => octets oid "1,0") <$> oids);
     service.mapOrder := fun keys => keys |}.


(** A poller as [AddDevice] creates it. *)
Definition newPoller (d : domain.Device) (p : option domain.Profile)
    : service.devicePoller :=
  {| service.device := d; service.profile := p; service.client := None;
     service.pollCount := 0; service.missingOIDs := ∅ |}.

(** An outlet switch with the APC codes. *)
Definition apcOutlet : domain.OIDMapping :=
  mapping ".1.3.6.1.4.1.318.1.1.4.4.2.1.3.1" "Outlet 1" domain.OIDTypeInteger
          0%float domain.HAComponentSwitch (Some onOff) "" 0.

(** A select whose codes are not the sequence 1, 2, 3. *)
Definition sparseSelect : domain.OIDMapping :=
  mapping ".1.3.6.1.4.1.318.1.1.4.4.2.1.3.2" "Outlet Command" domain.OIDTypeEnum
          0%float domain.HAComponentSelect
          (Some (<[0 := "Off"]> (<[2 := "On"]> (<[4 := "Reboot"]> ∅)))) "" 0.

Definition oidValue (name oid : string) : gosnmp.SnmpPDU :=
  {| gosnmp.Name := name; gosnmp.Type_ := gosnmp.ObjectIdentifier;
     gosnmp.Value := VString oid |}.

(** A trap packet that carries only its trap OID (coldStart). *)
Definition bareTrap : list gosnmp.SnmpPDU :=
  [oidValue worker.snmpTrapOID ".1.3.6.1.6.3.1.1.5.1"].

(** The trap of an APC UPS that went on battery, with its up time. *)
Definition onBatteryTrap : list gosnmp.SnmpPDU :=
  [{| gosnmp.Name := ".1.3.6.1.2.1.1.3.0"; gosnmp.Type_ := gosnmp.TimeTicks;
      gosnmp.Value := VUint32 4711 |};
   oidValue worker.snmpTrapOID ".1.3.6.1.4.1.318.2.3.1"].


End sample.

(** ** The specification's vocabulary *)

Module spec.




(** [enumValues] has the entry [k] with a label that reads [label] when case
    is ignored. *)
Definition labelled (m : domain.OIDMapping) (label : string) (k : Z) : Prop :=
  exists v, domain.enumLookup (domain.EnumValues m) k = Some v
            /\ strings.EqualFold v label = true.

End spec.

(** * More of the packages *)

(** [strings.ToLower]. Runes outside ASCII can have a lower case inside it
    (the Kelvin sign), so the function is an interface like the other text
    functions. *)
Class GoCase : Type := {
  ToLower : string -> string;
}.

(** ** Package service: device management *)

Module poller.

(** [UpdateDevice]: remove the device, and add it again when it is
    enabled. [p] is what the profile repository returns for it. *)
Definition UpdateDevice (sys : service.System) (d : domain.Device)
    (p : option domain.Profile) : service.System :=
  let sys1 := service.RemoveDevice sys (domain.DevID d) in
  if domain.Enabled d then service.AddDevice sys1 d p else sys1.

(** [GetDeviceState]: the state, or nil. *)
Definition GetDeviceState (s : service.PollerService) (id : string)
    : option domain.DeviceState :=
  service.states s !! id.



(** The device whose state entry an operation writes. *)
Definition target (op : service.StoreOp) : string :=
  match op with
  | service.OpUpdate id _ _ _ _ _ => id
  | service.OpInit id => id
  | service.OpDelete id => id
  end.


End poller.

(** ** Package mqtt: entity identifiers and topics *)

Module discovery.

(** [strings.ReplaceAll(s, old, new)] for one-byte [old] and [new]. *)
Fixpoint replaceByte (old new : ascii) (s : string) : string :=
  match s with
  | EmptyString => EmptyString
  | String c s' =>
      String (if Ascii.eqb c old then new else c) (replaceByte old new s')
  end.

(** [(r >= 'a' && r <= 'z') || (r >= '0' && r <= '9') || r == '_'] *)
Definition allowed (c : ascii) : bool :=
  let n := N_of_ascii c in
  (((97 <=? n) && (n <=? 122)) || ((48 <=? n) && (n <=? 57)) || (n =? 95))%N.

(** The loop that keeps the allowed runes. A rune outside ASCII is never
    allowed and neither is any of its bytes, so the loop over bytes keeps
    what the loop over runes keeps. *)
Fixpoint keepAllowed (s : string) : string :=
  match s with
  | EmptyString => EmptyString
  | String c s' => if allowed c then String c (keepAllowed s') else keepAllowed s'
  end.

(** Every byte of the string is a lower-case letter, a digit or an
    underscore. *)
Definition onlyAllowed (s : string) : Prop :=
  Forall (fun c => allowed c = true) (list_ascii_of_string s).

Definition sanitizeEntityID {case : GoCase} (name : string) : string :=
  let result := ToLower name in
  let result := replaceByte " " "_" result in
  let result := replaceByte "-" "_" result in
  let result := replaceByte "." "_" result in
  keepAllowed result.

(** [fmt.Sprintf("%s/%s/%s/set", topicPrefix, device.ID, entityID)] *)
Definition commandTopic (topicPrefix deviceID entityID : string) : string :=
  topicPrefix ++ "/" ++ deviceID ++ "/" ++ entityID ++ "/set".

(** The command topic [PublishDevice] announces for a mapping. *)
Definition mappingCommandTopic {case : GoCase} (topicPrefix : string)
    (device : domain.Device) (mapping : domain.OIDMapping) : option string :=
  if domain.Writable mapping
  then Some (commandTopic topicPrefix (domain.DevID device)
                          (sanitizeEntityID (domain.Name mapping)))
  else None.

End discovery.

(** ** Package mqtt: the client's topic parsing *)

Module client.

(** [s[n:]] for [n <= len(s)]. *)
Fixpoint sliceFrom (n : nat) (s : string) : string :=
  match n, s with
  | O, _ => s
  | S n', String _ s' => sliceFrom n' s'
  | S _, EmptyString => EmptyString
  end.

(** The bytes before the first slash, or all of them. *)
Fixpoint untilSlash (s : string) : string :=
  match s with
  | EmptyString => EmptyString
  | String c s' => if Ascii.eqb c "/" then EmptyString else String c (untilSlash s')
  end.

(** [extractEntityID]; the slice [topic[prefixLen:]] panics when the topic
    is shorter than the prefix and the device id with their slashes. *)
Definition extractEntityID (topic prefix deviceID : string) : go string :=
  let prefixLen := (String.length prefix + 1 + String.length deviceID + 1)%nat in
  if (String.length topic <? prefixLen)%nat then Panic "slice bounds out of range"
  else Ret (untilSlash (sliceFrom prefixLen topic)).

End client.

(** ** Package mqtt: values as the publisher sends them *)

Module publisher.

Section states.
Context {text : GoText} {case : GoCase}.

Definition goodValues : list string :=
  ["ok"; "normal"; "redundant"; "on"; "connected"; "online"; "healthy"; "good";
   "active"].

Definition convertToBinarySensorValue (v : value) (deviceClass : string) : string :=
  let strValue := Sprint_v v in
  let strLower := ToLower strValue in
  if bool_decide (deviceClass = "problem" \/ deviceClass = "safety") then
    if bool_decide (strLower ∈ goodValues) then "OFF" else "ON"
  else if bool_decide (deviceClass = "power") then
    if bool_decide (strLower ∈ goodValues) then "ON" else "OFF"
  else
    if bool_decide (strLower ∈ goodValues) then "OFF" else "ON".

(** The value [publishState] looks up for a mapping: by name, then by
    OID. *)
Definition eventValue (values : gmap string value) (mapping : domain.OIDMapping)
    : option value :=
  match values !! domain.Name mapping with
  | Some v => Some v
  | None => values !! domain.OID mapping
  end.

End states.

End publisher.

(** ** More sample data *)

Module samples.

Definition lowerByte (c : ascii) : ascii :=
  let n := N_of_ascii c in
  if ((65 <=? n) && (n <=? 90))%N then ascii_of_N (n + 32) else c.

Fixpoint lower (s : string) : string :=
  match s with
  | EmptyString => EmptyString
  | String c s' => String (lowerByte c) (lower s')
  end.

(** Lower case of the ASCII letters. *)
Definition case : GoCase := {| ToLower := lower |}.



End samples.

(** * Properties *)

Import service.

(** ** State accumulation *)

Lemma valuesOf_updateState_same s id values online errors tPoll tEvent :
  valuesOf (updateState s id values online errors tPoll tEvent).1 id
  = match values with
    | Some vs => vs ∪ valuesOf s id
    | None => valuesOf s id
    end.
Proof.
  unfold valuesOf, updateState; simpl.
  rewrite lookup_insert_eq; simpl.
  destruct (states s !! id); destruct values; reflexivity.
Qed.

Lemma valuesOf_updateState_other s id id' values online errors tPoll tEvent :
  id' ≠ id ->
  valuesOf (updateState s id' values online errors tPoll tEvent).1 id = valuesOf s id.
Proof.
  intros Hne. unfold valuesOf, updateState; simpl.
  rewrite lookup_insert_ne by done. reflexivity.
Qed.

Lemma updateState_event s id values online errors tPoll tEvent :
  let '(s', e) := updateState s id values online errors tPoll tEvent in
  EvDeviceID e = id /\ EvValues e = valuesOf s' id.
Proof.
  unfold updateState, valuesOf; simpl. split; [reflexivity |].
  by rewrite lookup_insert_eq.
Qed.

Lemma runStore_app s ops1 ops2 :
  runStore s (ops1 ++ ops2)
  = let '(s1, ev1) := runStore s ops1 in
    let '(s2, ev2) := runStore s1 ops2 in
    (s2, (ev1 ++ ev2)%list).
Proof.
  revert s. induction ops1 as [| op ops1 IH]; intros s; simpl.
  - destruct (runStore s ops2); reflexivity.
  - destruct op; simpl; rewrite ?IH.
    + destruct (runStore _ ops1) as [s1 ev1]. destruct (runStore s1 ops2). reflexivity.
    + reflexivity.
    + reflexivity.
Qed.

Lemma runStore_update_fst s id values online errors tPoll tEvent ops :
  (runStore s (OpUpdate id values online errors tPoll tEvent :: ops)).1
  = (runStore (updateState s id values online errors tPoll tEvent).1 ops).1.
Proof.
  cbn [runStore]. destruct (updateState s id values online errors tPoll tEvent) as [s1 e].
  cbn [fst]. destruct (runStore s1 ops). reflexivity.
Qed.

(** Keys only accumulate while the device's state is neither reset nor
    deleted. *)
Lemma runStore_keeps_keys id ops :
  Forall (keeps id) ops ->
  forall s k,
    (k ∈ dom (valuesOf s id) \/ exists op, op ∈ ops /\ k ∈ keysWritten id op) ->
    k ∈ dom (valuesOf (runStore s ops).1 id).
Proof.
  induction 1 as [| op ops Hk _ IH]; intros s k Hin.
  - simpl. destruct Hin as [H | (op & Hop & _)]; [done | by apply elem_of_nil in Hop].
  - assert (Hstep : forall s', (k ∈ dom (valuesOf s' id) \/
               exists op', op' ∈ ops /\ k ∈ keysWritten id op') ->
               k ∈ dom (valuesOf (runStore s' ops).1 id)) by (intros; by apply IH).
    destruct op as [id' values online errors tPoll tEvent | id' | id'].
    + rewrite runStore_update_fst. apply Hstep.
      destruct Hin as [H | (op & Hop & Hw)].
      * left. destruct (decide (id' = id)) as [-> | Hne].
        -- rewrite valuesOf_updateState_same. destruct values; [| done].
           rewrite dom_union. set_solver.
        -- by rewrite valuesOf_updateState_other.
      * apply elem_of_cons in Hop as [-> | Hop]; [| right; eauto].
        left. simpl in Hw. destruct values as [vs |]; [| set_solver].
        destruct (decide (id' = id)) as [-> | Hne]; [| set_solver].
        rewrite valuesOf_updateState_same, dom_union. set_solver.
    + apply Hstep. destruct Hin as [H | (op & Hop & Hw)].
      * left. unfold valuesOf, initState in *; simpl. by rewrite lookup_insert_ne.
      * apply elem_of_cons in Hop as [-> | Hop]; [set_solver | right; eauto].
    + apply Hstep. destruct Hin as [H | (op & Hop & Hw)].
      * left. unfold valuesOf, deleteState in *; simpl. by rewrite lookup_delete_ne.
      * apply elem_of_cons in Hop as [-> | Hop]; [set_solver | right; eauto].
Qed.

(** C1. Every event that [updateState] emits for a device carries the
    device's whole accumulated map: it holds every key the state had and
    every key that any poll has written since, this poll included, as long
    as the device was not removed or added anew in between. The event's
    values are the stored map itself after the merge, in which the poll's
    values replace the stored ones under the same key and every other key
    keeps its value. *)
Theorem event_carries_every_accumulated_key
    (id : string) (s : PollerService) (ops : list StoreOp)
    (values : option (gmap string value)) (online : bool) (errors : list string)
    (tPoll tEvent : Z) :
  Forall (keeps id) ops ->
  let update := OpUpdate id values online errors tPoll tEvent in
  exists (s' : PollerService) (e : StateUpdateEvent),
    runStore s (ops ++ [update]) = (s', ((runStore s ops).2 ++ [e])%list)
    /\ EvDeviceID e = id
    /\ EvValues e = valuesOf s' id
    /\ (forall k : string,
          (k ∈ dom (valuesOf s id)
           \/ exists op, op ∈ (ops ++ [update])%list /\ k ∈ keysWritten id op) ->
          k ∈ dom (EvValues e))
    /\ (forall vs k v, values = Some vs -> vs !! k = Some v -> EvValues e !! k = Some v)
    /\ (forall k : string,
          match values with Some vs => vs !! k = None | None => True end ->
          EvValues e !! k = valuesOf (runStore s ops).1 id !! k).
Proof.
  intros Hkeeps update.
  assert (Hall : Forall (keeps id) (ops ++ [update])).
  { apply Forall_app. split; [done |]. repeat constructor. }
  pose proof (runStore_keeps_keys id _ Hall s) as Hkeys.
  rewrite runStore_app in Hkeys |- *.
  destruct (runStore s ops) as [s1 ev1]. subst update. cbn [runStore fst snd] in *.
  pose proof (updateState_event s1 id values online errors tPoll tEvent) as Hev.
  pose proof (valuesOf_updateState_same s1 id values online errors tPoll tEvent) as Hmerge.
  destruct (updateState s1 id values online errors tPoll tEvent) as [s' e].
  destruct Hev as [Hid Hvals]. cbn [fst] in Hmerge.
  exists s', e. split; [reflexivity |]. split; [exact Hid |]. split; [exact Hvals |].
  split; [| split].
  - intros k Hk. rewrite Hvals. by apply Hkeys.
  - intros vs k v -> Hk. rewrite Hvals, Hmerge. by apply lookup_union_Some_l.
  - intros k Hk. rewrite Hvals, Hmerge. destruct values as [vs |]; [| reflexivity].
    by apply lookup_union_r.
Qed.

Lemma event_carries_every_accumulated_key_witness :
  exists (s' : PollerService) (e : StateUpdateEvent),
    runStore NewPollerService
      [OpInit "ups1"; OpUpdate "ups1" (Some {["Voltage" := VInt 230]}) true [] 1 1;
       OpDelete "pdu1"; OpUpdate "ups1" (Some {["Load" := VInt 40]}) true [] 2 2]
    = (s', ((runStore NewPollerService
               [OpInit "ups1"; OpUpdate "ups1" (Some {["Voltage" := VInt 230]}) true [] 1 1;
                OpDelete "pdu1"]).2 ++ [e])%list)
    /\ "Voltage" ∈ dom (EvValues e).
Proof.
  destruct (event_carries_every_accumulated_key "ups1" (initState NewPollerService "ups1")
              [OpUpdate "ups1" (Some {["Voltage" := VInt 230]}) true [] 1 1; OpDelete "pdu1"]
              (Some {["Load" := VInt 40]}) true [] 2 2) as (s' & e & Hrun & _ & _ & Hkeys & _).
  - repeat constructor. discriminate.
  - exists s', e. split; [exact Hrun |].
    apply Hkeys. right. eexists. split; [apply list_elem_of_here |].
    simpl. rewrite dom_singleton_L. apply elem_of_singleton. reflexivity.
Defined.

(** ** The transformer *)



Section transformer_props.
Context {text : GoText}.

(** A composite mapping ignores its scale. *)
Lemma transformValue_composite v m :
  domain.Type_ m = domain.OIDTypeCompositeSwitch ->
  transformValue v m = extractCompositeValue v m.
Proof. intros H. unfold transformValue. by rewrite decide_True. Qed.


(** C4. A composite_switch mapping applied to a string splits it on the
    separator (a comma by default). An index at or beyond the number of
    parts gives nil. Otherwise the part at the index (counted from 0) is
    trimmed; when it scans as an integer, the result is the enumValues label
    of that integer if there is one and the integer itself if not; when it
    does not scan, the result is the trimmed string. *)
Theorem composite_switch_extracts (s : string) (m : domain.OIDMapping) :
  domain.Type_ m = domain.OIDTypeCompositeSwitch ->
  0 <= domain.CompositeIndex m ->
  let separator :=
    if decide (domain.CompositeSeparator m = "") then ","
    else domain.CompositeSeparator m in
  let parts := strings.Split s separator in
  match parts !! Z.to_nat (domain.CompositeIndex m) with
  | None =>
      Z.of_nat (length parts) <= domain.CompositeIndex m
      /\ transformValue (VString s) m = Ret VNil
  | Some part =>
      domain.CompositeIndex m < Z.of_nat (length parts)
      /\ transformValue (VString s) m
         = Ret match Sscanf_d (TrimSpace part) with
               | Some n =>
                   match domain.enumLookup (domain.EnumValues m) n with
                   | Some name => VString name
                   | None => VInt n
                   end
               | None => VString (TrimSpace part)
               end
  end.
Proof.
  intros Hty Hidx separator parts.
  rewrite transformValue_composite by exact Hty.
  unfold extractCompositeValue. fold separator. fold parts.
  destruct (parts !! Z.to_nat (domain.CompositeIndex m)) as [part |] eqn:Hpart.
  - apply lookup_lt_Some in Hpart.
    assert (Hlt : domain.CompositeIndex m < Z.of_nat (length parts)) by lia.
    split; [exact Hlt |].
    destruct (Z.leb_spec (Z.of_nat (length parts)) (domain.CompositeIndex m)); [lia |].
    destruct (Z.ltb_spec (domain.CompositeIndex m) 0); [lia |].
    destruct (Sscanf_d (TrimSpace part)) as [n |]; [| reflexivity].
    destruct (domain.enumLookup (domain.EnumValues m) n); reflexivity.
  - apply lookup_ge_None in Hpart.
    assert (Hge : Z.of_nat (length parts) <= domain.CompositeIndex m) by lia.
    split; [exact Hge |].
    destruct (Z.leb_spec (Z.of_nat (length parts)) (domain.CompositeIndex m)); [| lia].
    reflexivity.
Qed.

End transformer_props.



Lemma composite_switch_extracts_witness :
  @transformValue sample.text (VString "1, 0,1") sample.outlet2 = Ret (VString "Off").
Proof.
  apply (@composite_switch_extracts sample.text "1, 0,1" sample.outlet2).
  - reflexivity.
  - vm_compute. discriminate.
Defined.

(** ** What a poll cycle stores *)

Section store_props.
Context {text : GoText}.

Lemma applyMappings_other v ms :
  forall values r k,
    applyMappings v ms values = Ret r ->
    (forall m', m' ∈ ms -> domain.Name m' ≠ k) ->
    r !! k = values !! k.
Proof.
  induction ms as [| m ms IH]; intros values r k Hrun Hne; simpl in Hrun.
  - by inversion Hrun.
  - destruct (transformValue v m) as [tv | |]; simpl in Hrun; try discriminate.
    rewrite (IH _ _ _ Hrun).
    + apply lookup_insert_ne. apply Hne. left.
    + intros m' Hm'. apply Hne. by right.
Qed.

Lemma applyMappings_stores v pre m post tv :
  forall values r,
    applyMappings v (pre ++ m :: post) values = Ret r ->
    (forall m', m' ∈ post -> domain.Name m' ≠ domain.Name m) ->
    transformValue v m = Ret tv ->
    r !! domain.Name m = Some tv.
Proof.
  induction pre as [| m0 pre IH]; intros values r Hrun Hne Htv; simpl in Hrun.
  - rewrite Htv in Hrun. simpl in Hrun.
    rewrite (applyMappings_other _ _ _ _ _ Hrun Hne). apply lookup_insert_eq.
  - destruct (transformValue v m0) as [tv0 | |]; simpl in Hrun; try discriminate.
    by apply (IH _ _ Hrun).
Qed.

Lemma calculateDerivedValues_other values k :
  k ≠ "Active Power" -> calculateDerivedValues values !! k = values !! k.
Proof.
  intros Hk. unfold calculateDerivedValues.
  repeat match goal with |- context [if ?b then _ else _] => destruct b end;
    try reflexivity.
  by apply lookup_insert_ne.
Qed.



End store_props.



(** ** The OID list of a poll cycle *)

Lemma groupInterval_static m :
  domain.PollGroup m = "static" -> groupInterval m = 10.
Proof. intros H. unfold groupInterval. rewrite H. reflexivity. Qed.

Lemma groupInterval_frequent m :
  domain.PollGroup m = "" \/ domain.PollGroup m = "frequent" -> groupInterval m = 1.
Proof. intros [H | H]; unfold groupInterval; rewrite H; reflexivity. Qed.

Lemma collectOIDs_spec pc missing ms :
  forall acc x,
    x ∈ collectOIDs pc missing ms acc
    <-> x ∈ acc \/ exists m, m ∈ ms /\ domain.OID m = x /\ due pc m
                             /\ normalizeOID (domain.OID m) ∉ missing.
Proof.
  induction ms as [| m ms IH]; intros acc x; simpl.
  - split; [by left |]. intros [H | (m & Hm & _)]; [done | by apply elem_of_nil in Hm].
  - unfold due in IH.
    destruct (decide (Z.rem pc (groupInterval m) = 0)) as [Hd | Hd];
      [destruct (decide (normalizeOID (domain.OID m) ∈ missing)) as [Hm | Hm] |];
      rewrite IH; split.
    + intros [Hx | (m' & Hm' & Hrest)]; [by left |].
      right. exists m'. split; [by right | done].
    + intros [Hx | (m' & Hm' & Hx & Hd' & Hmiss)]; [by left |].
      apply elem_of_cons in Hm' as [Heq | Hm']; [by subst m' |]. right. eauto.
    + intros [Hx | (m' & Hm' & Hrest)].
      * apply elem_of_union in Hx as [Hx | Hx]; [| by left].
        apply elem_of_singleton in Hx. right. exists m. split; [by left | done].
      * right. exists m'. split; [by right | done].
    + intros [Hx | (m' & Hm' & Hx & Hd' & Hmiss)];
        [left; apply elem_of_union; by right |].
      apply elem_of_cons in Hm' as [Heq | Hm']; [| right; eauto].
      left. apply elem_of_union. left. apply elem_of_singleton. by subst.
    + intros [Hx | (m' & Hm' & Hrest)]; [by left |].
      right. exists m'. split; [by right | done].
    + intros [Hx | (m' & Hm' & Hx & Hd' & Hmiss)]; [by left |].
      apply elem_of_cons in Hm' as [Heq | Hm']; [by subst m' |]. right. eauto.
Qed.

(** The list computed from the profile never holds an OID that is known
    to be missing. *)
Lemma getOIDsToPoll_skips_missing env dp x :
  range_ok env ->
  x ∈ getOIDsToPoll env dp -> normalizeOID x ∉ missingOIDs dp.
Proof.
  intros Hrange. unfold getOIDsToPoll. destruct (profile dp) as [p |].
  - rewrite (Hrange _), elem_of_elements, collectOIDs_spec.
    intros [H | (m & _ & <- & _ & Hmiss)]; [set_solver | done].
  - intros H. by apply elem_of_nil in H.
Qed.


Section poll_props.
Context {text : GoText}.











End poll_props.

(** A profile of static mappings outside a tenth cycle has no mapping due. *)
Lemma static_not_due pc m :
  domain.PollGroup m = "static" -> Z.rem pc 10 <> 0 -> ~ due pc m.
Proof. intros Hg Hrem. unfold due. by rewrite (groupInterval_static _ Hg). Qed.

Lemma sample_range_ok : range_ok sample.twoOutlets.
Proof. intros keys. reflexivity. Qed.


(** ** Missing OIDs and the base-OID fallback *)


(** ** Commands to SET values *)

Lemma Sprintf_d_nonempty k : Sprintf_d k <> "".
Proof.
  unfold Sprintf_d. destruct (Z.to_int k) as [d | d]; simpl.
  - destruct d; discriminate.
  - discriminate.
Qed.

Lemma firstLabelled_Some label entries k :
  mqtt.firstLabelled label entries = Some k ->
  exists v, (k, v) ∈ entries /\ strings.EqualFold v label = true.
Proof.
  induction entries as [| [k0 v0] entries IH]; simpl; [discriminate |].
  destruct (strings.EqualFold v0 label) eqn:Hfold.
  - intros [= ->]. exists v0. split; [left | done].
  - intros H. destruct (IH H) as (v & Hin & Hv). exists v. split; [by right | done].
Qed.

Lemma firstLabelled_None label entries :
  mqtt.firstLabelled label entries = None ->
  forall k v, (k, v) ∈ entries -> strings.EqualFold v label = false.
Proof.
  induction entries as [| [k0 v0] entries IH]; simpl; intros H k v Hin.
  - by apply elem_of_nil in Hin.
  - destruct (strings.EqualFold v0 label) eqn:Hfold; [discriminate |].
    apply elem_of_cons in Hin as [[= -> ->] | Hin]; [done | by eapply IH].
Qed.

Lemma switchKey_firstLabelled (on : bool) entries :
  mqtt.switchKey (if on then "ON" else "OFF") entries
  = mqtt.firstLabelled (if on then "On" else "Off") entries.
Proof.
  induction entries as [| [k v] entries IH]; simpl; [reflexivity |].
  rewrite IH. destruct on; simpl.
  - rewrite andb_true_r. rewrite andb_false_r. reflexivity.
  - rewrite andb_false_r. rewrite andb_true_r. reflexivity.
Qed.

Section command_props.
Context {text : GoText}.
Variable order : list (Z * string) -> list (Z * string).
Hypothesis order_ok : forall entries : list (Z * string), order entries ≡ₚ entries.

Lemma rangeEnum_elem m k v :
  (k, v) ∈ mqtt.rangeEnum order (domain.EnumValues m)
  <-> domain.enumLookup (domain.EnumValues m) k = Some v.
Proof.
  unfold mqtt.rangeEnum, domain.enumLookup. destruct (domain.EnumValues m) as [e |].
  - rewrite (order_ok _). apply elem_of_map_to_list.
  - split; [intros H; by apply elem_of_nil in H | discriminate].
Qed.

(** The loop over enumValues finds an entry with the payload's label
    exactly when there is one. *)
Lemma switchKey_spec (on : bool) m :
  match mqtt.switchKey (if on then "ON" else "OFF")
                       (mqtt.rangeEnum order (domain.EnumValues m)) with
  | Some k => spec.labelled m (if on then "On" else "Off") k
  | None => forall k, ~ spec.labelled m (if on then "On" else "Off") k
  end.
Proof.
  rewrite switchKey_firstLabelled.
  destruct (mqtt.firstLabelled _ _) as [k |] eqn:Hfirst.
  - apply firstLabelled_Some in Hfirst as (v & Hin & Hv).
    exists v. split; [by apply rangeEnum_elem | done].
  - intros k (v & Hlook & Hv). apply rangeEnum_elem in Hlook.
    rewrite (firstLabelled_None _ _ Hfirst _ _ Hlook) in Hv. discriminate.
Qed.

(** C6. A command ON or OFF (in any case) for a writable switch mapping:
    when enumValues has an entry labelled On (for ON) or Off (for OFF), the
    value of the SET is the integer key of such an entry; otherwise it is 1
    for ON and 2 for OFF. For a composite_switch mapping the field written
    at the mapping's index is the key of such an entry, printed in decimal,
    and otherwise 1 for ON and 0 for OFF; the other fields of the string
    read from the device are kept. *)
Theorem switch_command_value
    (m : domain.OIDMapping) (payload : string) (current : go value) (on : bool) :
  domain.Writable m = true ->
  strings.ToUpper (TrimSpace payload) = (if on then "ON" else "OFF") ->
  let label := if on then "On" else "Off" in
  let writeOID :=
    if decide (domain.WriteOID m = "") then domain.OID m else domain.WriteOID m in
  let separator :=
    if decide (domain.CompositeSeparator m = "") then ","
    else domain.CompositeSeparator m in
  (domain.Type_ m ≠ domain.OIDTypeCompositeSwitch ->
   domain.HAComponent_ m = domain.HAComponentSwitch ->
   exists k : Z,
     mqtt.handleCommand order m payload current = Ret (writeOID, VInt k)
     /\ (spec.labelled m label k
         \/ (forall k', ~ spec.labelled m label k') /\ k = if on then 1 else 2))
  /\ (domain.Type_ m = domain.OIDTypeCompositeSwitch ->
      forall cur : string,
        current = Ret (VString cur) ->
        0 <= domain.CompositeIndex m < Z.of_nat (length (strings.Split cur separator)) ->
        exists field : string,
          mqtt.handleCommand order m payload current
          = Ret (writeOID,
                 VString (strings.Join
                            (<[Z.to_nat (domain.CompositeIndex m) := field]>
                               (strings.Split cur separator))
                            separator))
          /\ ((exists k, spec.labelled m label k /\ field = Sprintf_d k)
              \/ (forall k', ~ spec.labelled m label k')
                 /\ field = if on then "1" else "0")).
Proof.
  intros Hw Hpayload label writeOID separator.
  pose proof (switchKey_spec on m) as Hkey.
  split.
  - intros Hty Hcomp. unfold mqtt.handleCommand. rewrite Hw. simpl.
    destruct (decide (domain.Type_ m = domain.OIDTypeCompositeSwitch)); [done |].
    unfold mqtt.convertPayloadToSNMPValue.
    destruct (decide (domain.HAComponent_ m = domain.HAComponentSwitch)); [| done].
    rewrite Hpayload.
    destruct (mqtt.switchKey _ _) as [k |].
    + exists k. split; [reflexivity | by left].
    + exists (if on then 1 else 2). split; [| by right].
      destruct on; reflexivity.
  - intros Hty cur -> Hidx. unfold mqtt.handleCommand. rewrite Hw. simpl.
    destruct (decide (domain.Type_ m = domain.OIDTypeCompositeSwitch)); [| done].
    unfold mqtt.convertCompositePayloadToSNMPValue. fold separator.
    destruct (Z.leb_spec (Z.of_nat (length (strings.Split cur separator)))
                         (domain.CompositeIndex m)); [lia |].
    destruct (Z.ltb_spec (domain.CompositeIndex m) 0); [lia |].
    simpl. eexists. split; [reflexivity |].
    unfold mqtt.compositeNewValue. rewrite Hpayload.
    destruct (mqtt.switchKey _ _) as [k |].
    + left. exists k. split; [exact Hkey |].
      rewrite decide_False by apply Sprintf_d_nonempty. reflexivity.
    + right. split; [exact Hkey |]. destruct on; reflexivity.
Qed.

End command_props.

Lemma switch_command_value_witness :
  exists k : Z,
    @mqtt.handleCommand sample.text (fun entries => entries) sample.apcOutlet " off "
                        (Fail "not read")
    = Ret (".1.3.6.1.4.1.318.1.1.4.4.2.1.3.1", VInt k)
    /\ (spec.labelled sample.apcOutlet "Off" k
        \/ (forall k', ~ spec.labelled sample.apcOutlet "Off" k') /\ k = 2).
Proof.
  destruct (@switch_command_value sample.text (fun entries => entries)
              (fun entries => Permutation_refl entries)
              sample.apcOutlet " off " (Fail "not read") false) as [H _].
  - reflexivity.
  - vm_compute. reflexivity.
  - apply H.
    + vm_compute. discriminate.
    + reflexivity.
Defined.

(** ** Options of a select entity *)

Lemma addRemaining_prefix entries :
  forall opts, exists rest, mqtt.addRemaining entries opts = (opts ++ rest)%list.
Proof.
  unfold mqtt.addRemaining.
  induction entries as [| kv entries IH]; intros opts; simpl.
  - exists []. by rewrite app_nil_r.
  - case_decide.
    + apply IH.
    + destruct (IH (opts ++ [kv.2])%list) as [rest ->].
      exists (kv.2 :: rest). by rewrite <- app_assoc.
Qed.

Lemma addRemaining_elem entries :
  forall opts v,
    v ∈ mqtt.addRemaining entries opts <-> v ∈ opts \/ v ∈ entries.*2.
Proof.
  unfold mqtt.addRemaining.
  induction entries as [| kv entries IH]; intros opts v; cbn [foldl].
  - split; [by left |]. intros [H | H]; [done | by apply elem_of_nil in H].
  - rewrite fmap_cons.
    case_decide as Hin; rewrite IH; set_solver.
Qed.

Lemma sequenceOptions_elem (m : gmap Z string) v :
  v ∈ mqtt.sequenceOptions m -> exists k, m !! k = Some v.
Proof.
  unfold mqtt.sequenceOptions. intros H.
  apply list_elem_of_omap in H as (i & _ & Hi). eauto.
Qed.

(** Whatever order the range takes, the options are the labels of
    enumValues, and they start with the labels of the keys 1, 2, ... up to
    the number of entries, in that order. *)
Lemma selectOptions_labels order m opts :
  (forall entries : list (Z * string), order entries ≡ₚ entries) ->
  mqtt.selectOptions order m = Some opts ->
  (forall v, v ∈ opts <-> exists k, domain.enumLookup (domain.EnumValues m) k = Some v)
  /\ exists e rest, domain.EnumValues m = Some e
                    /\ opts = (mqtt.sequenceOptions e ++ rest)%list.
Proof.
  intros Horder. unfold mqtt.selectOptions, domain.enumLookup.
  destruct (domain.EnumValues m) as [e |]; [| discriminate].
  intros [= <-]. split.
  - intros v. rewrite addRemaining_elem. split.
    + intros [H | H]; [by apply sequenceOptions_elem |].
      apply list_elem_of_fmap in H as ([k v'] & -> & Hin).
      rewrite (Horder _) in Hin. apply elem_of_map_to_list in Hin. eauto.
    + intros (k & Hk). right. apply list_elem_of_fmap. exists (k, v).
      split; [reflexivity |]. rewrite (Horder _). by apply elem_of_map_to_list.
  - destruct (addRemaining_prefix (order (map_to_list e)) (mqtt.sequenceOptions e))
      as [rest Hrest].
    exists e, rest. split; [reflexivity | exact Hrest].
Qed.

(** C8 at a failing input. With enumValues 0: Off, 2: On, 4: Reboot only
    the key 2 lies in 1..3, and the labels Off and Reboot are appended in
    the order of the range over the map: two orders of that range give two
    different option lists. *)
Lemma select_options_follow_the_range_order :
  (forall entries : list (Z * string), rev entries ≡ₚ entries)
  /\ mqtt.selectOptions (fun entries => entries) sample.sparseSelect
     = Some ["On"; "Reboot"; "Off"]
  /\ mqtt.selectOptions (@rev (Z * string)) sample.sparseSelect
     = Some ["On"; "Off"; "Reboot"].
Proof.
  split; [intros entries; symmetry; apply Permutation_rev |].
  split; vm_compute; reflexivity.
Qed.

(** ** Traps *)

Section trap_props.
Context {text : GoText}.

(** C9, amended. The TrapLog of a received trap has severity critical for
    the trap OIDs .1.3.6.1.4.1.318.2.3.1 and .1.3.6.1.4.1.318.2.3.5,
    warning for .1.3.6.1.4.1.318.2.3.2 and .1.3.6.1.4.1.318.2.3.4, and info
    otherwise. Its message is the table entry of the trap OID; for an OID
    outside the table it is "Trap <oid> with <n> variables" when the trap
    carries n > 0 variables and "Trap <oid>" when it carries none. *)
Theorem trap_severity_and_message
    (devices : option (list domain.Device)) (packet : list gosnmp.SnmpPDU)
    (ip id : string) (now : Z) (log : domain.TrapLog) :
  worker.handleTrap devices packet ip id now = Ret log ->
  let oid := domain.TrapOID log in
  let n := size (domain.Variables log) in
  (oid = ".1.3.6.1.4.1.318.2.3.1" \/ oid = ".1.3.6.1.4.1.318.2.3.5" ->
   domain.Severity log = domain.SeverityCritical)
  /\ (oid = ".1.3.6.1.4.1.318.2.3.2" \/ oid = ".1.3.6.1.4.1.318.2.3.4" ->
      domain.Severity log = domain.SeverityWarning)
  /\ (oid ∉ [".1.3.6.1.4.1.318.2.3.1"; ".1.3.6.1.4.1.318.2.3.5";
             ".1.3.6.1.4.1.318.2.3.2"; ".1.3.6.1.4.1.318.2.3.4"] ->
      domain.Severity log = domain.SeverityInfo
      /\ domain.Message log
         = if decide (n = O) then "Trap " ++ oid
           else "Trap " ++ oid ++ " with " ++ Sprintf_d (Z.of_nat n) ++ " variables")
  /\ (oid = ".1.3.6.1.4.1.318.2.3.1" -> domain.Message log = "UPS on battery power")
  /\ (oid = ".1.3.6.1.4.1.318.2.3.2" ->
      domain.Message log = "UPS returned to utility power")
  /\ (oid = ".1.3.6.1.4.1.318.2.3.5" -> domain.Message log = "UPS battery low")
  /\ (oid = ".1.3.6.1.4.1.318.2.3.4" ->
      domain.Message log = "Communication lost with UPS").
Proof.
  unfold worker.handleTrap. intros Hrun.
  destruct (worker.scanVariables packet "" ∅) as [[trapOID variables] | |];
    simpl in Hrun; try discriminate.
  inversion Hrun; subst log; clear Hrun. cbn [domain.TrapOID domain.Variables
    domain.Severity domain.Message].
  assert (Hnot : forall (x : string) (l : list string), trapOID ∉ l -> x ∈ l -> trapOID <> x).
  { intros x l Hout Hin ->. by apply Hout. }
  split; [intros [-> | ->]; reflexivity |].
  split; [intros [-> | ->]; reflexivity |].
  split.
  { intros Hout.
    assert (H1 : trapOID <> ".1.3.6.1.4.1.318.2.3.1")
      by (apply (Hnot _ _ Hout); set_solver).
    assert (H5 : trapOID <> ".1.3.6.1.4.1.318.2.3.5")
      by (apply (Hnot _ _ Hout); set_solver).
    assert (H2 : trapOID <> ".1.3.6.1.4.1.318.2.3.2")
      by (apply (Hnot _ _ Hout); set_solver).
    assert (H4 : trapOID <> ".1.3.6.1.4.1.318.2.3.4")
      by (apply (Hnot _ _ Hout); set_solver).
    split.
    - unfold worker.determineSeverity.
      rewrite !bool_decide_eq_false_2; [reflexivity | |].
      + intros Hin. apply elem_of_cons in Hin as [Hin | Hin]; [done |].
        apply elem_of_cons in Hin as [Hin | Hin]; [done |]. by apply elem_of_nil in Hin.
      + intros Hin. apply elem_of_cons in Hin as [Hin | Hin]; [done |].
        apply elem_of_cons in Hin as [Hin | Hin]; [done |]. by apply elem_of_nil in Hin.
    - unfold worker.formatMessage.
      destruct (decide (trapOID = ".1.3.6.1.4.1.318.2.3.1")); [done |].
      destruct (decide (trapOID = ".1.3.6.1.4.1.318.2.3.2")); [done |].
      destruct (decide (trapOID = ".1.3.6.1.4.1.318.2.3.5")); [done |].
      destruct (decide (trapOID = ".1.3.6.1.4.1.318.2.3.4")); [done |].
      destruct (size variables); reflexivity. }
  split; [intros ->; reflexivity |].
  split; [intros ->; reflexivity |].
  split; intros ->; reflexivity.
Qed.

End trap_props.

(** C9 as stated fails: a trap whose OID is not in the table and that
    carries no other variable gets the message "Trap <oid>", without the
    count of variables. *)
Lemma trap_without_variables_has_short_message :
  match @worker.handleTrap sample.text None sample.bareTrap "10.0.0.7" "id" 0 with
  | Ret log =>
      domain.TrapOID log = ".1.3.6.1.6.3.1.1.5.1"
      /\ size (domain.Variables log) = O
      /\ domain.Message log = "Trap .1.3.6.1.6.3.1.1.5.1"
      /\ domain.Message log <> "Trap .1.3.6.1.6.3.1.1.5.1 with 0 variables"
  | _ => False
  end.
Proof. vm_compute. repeat split. discriminate. Qed.

Lemma trap_severity_and_message_witness :
  exists log,
    @worker.handleTrap sample.text (Some [sample.device "ups1" "v2c"])
                       sample.onBatteryTrap "10.0.0.7" "id" 0 = Ret log
    /\ domain.Severity log = domain.SeverityCritical
    /\ domain.Message log = "UPS on battery power".
Proof.
  destruct (@worker.handleTrap sample.text (Some [sample.device "ups1" "v2c"])
              sample.onBatteryTrap "10.0.0.7" "id" 0) as [log | e | e] eqn:Hrun.
  - exists log. split; [reflexivity |].
    destruct (@trap_severity_and_message sample.text _ _ _ _ _ _ Hrun)
      as (Hcrit & _ & _ & Hmsg & _).
    assert (Hoid : domain.TrapOID log = ".1.3.6.1.4.1.318.2.3.1").
    { vm_compute in Hrun. inversion Hrun. reflexivity. }
    split; [apply Hcrit; by left | by apply Hmsg].
  - vm_compute in Hrun. discriminate.
  - vm_compute in Hrun. discriminate.
Defined.

(** ** Removing a device while its poll is in flight *)

(** [RemoveDevice] does not touch where the goroutines stand: a poll in
    flight stays in flight. *)
Lemma RemoveDevice_keeps_pc sys id h r :
  routines sys !! h = Some r ->
  exists r', routines (RemoveDevice sys id) !! h = Some r' /\ rPc r' = rPc r
             /\ rDp r' = rDp r /\ rNet r' = rNet r.
Proof.
  intros Hr. unfold RemoveDevice; simpl.
  destruct (devices (svc sys) !! id) as [h' |]; simpl; [| eauto].
  destruct (routines sys !! h') as [r0 |] eqn:Hr0; [| eauto].
  destruct (decide (h' = h)) as [-> | Hne].
  - rewrite list_lookup_insert_eq by (by eapply lookup_lt_Some).
    rewrite Hr in Hr0. inversion Hr0; subst. eauto.
  - rewrite list_lookup_insert_ne by done. eauto.
Qed.

Lemma RemoveDevice_emitted sys id : emitted (RemoveDevice sys id) = emitted sys.
Proof. unfold RemoveDevice. by destruct (devices (svc sys) !! id). Qed.

Section system_props.
Context {text : GoText}.

(** Whenever a device is removed while its poll is in flight and that
    poll completes, the completion emits an event for the removed device
    and leaves a state entry for it. *)
Lemma finish_after_remove sys h r env tPoll tEvent dp' trace res :
  routines sys !! h = Some r ->
  rPc r = InPoll ->
  doPoll env (rNet r) (rDp r) = Ret (dp', trace, res) ->
  let id := domain.DevID (device (rDp r)) in
  exists sys' e,
    step (RemoveDevice sys id) (ActFinishPoll h env tPoll tEvent) = Some sys'
    /\ emitted sys' = (emitted sys ++ [e])%list
    /\ EvDeviceID e = id
    /\ is_Some (states (svc sys') !! id).
Proof.
  intros Hr Hpc Hrun id.
  destruct (RemoveDevice_keeps_pc sys id h r Hr) as (r' & Hr' & Hpc' & Hdp & Hnet).
  unfold step. rewrite Hr', Hpc', Hpc, Hnet, Hdp, Hrun. fold id.
  rewrite RemoveDevice_emitted.
  pose proof (updateState_event (svc (RemoveDevice sys id)) id (prValues res)
                (prOnline res) (prErrors res) tPoll tEvent) as Hev.
  destruct (updateState (svc (RemoveDevice sys id)) id (prValues res) (prOnline res)
              (prErrors res) tPoll tEvent) as [s' e] eqn:Hup.
  destruct Hev as [Hid _].
  eexists _, e. split; [reflexivity |]. split; [reflexivity |]. split; [exact Hid |].
  simpl. unfold updateState in Hup. inversion Hup; subst s'. simpl.
  rewrite lookup_insert_eq. eauto.
Qed.

End system_props.


(** ** The library models on small inputs *)

Example Split_outlets : strings.Split "1,1,0,-1" "," = ["1"; "1"; "0"; "-1"].
Proof. reflexivity. Qed.

Example Split_empty_fields : strings.Split "a,," "," = ["a"; ""; ""].
Proof. reflexivity. Qed.

Example Split_no_separator : strings.Split "" "," = [""].
Proof. reflexivity. Qed.

Example Join_Split : strings.Join (strings.Split "1;0;1" ";") ";" = "1;0;1".
Proof. reflexivity. Qed.

Example Round_half_away_from_zero :
  float64.Round 2.5 = 3%float /\ float64.Round (-2.5) = (-3)%float
  /\ float64.Round 0.25 = 0%float /\ float64.Round 7 = 7%float.
Proof. repeat split; vm_compute; reflexivity. Qed.

Example normalizeOID_strips_one_dot :
  normalizeOID ".1.3.6" = "1.3.6" /\ normalizeOID "1.3.6" = "1.3.6"
  /\ normalizeOID "..1.3.6" = ".1.3.6".
Proof. repeat split. Qed.

Example voltage_in_tenths :
  @transformValue sample.text (VInt 2304) sample.voltage
  = Ret (VFloat64 (PrimFloat.div 23040 100)).
Proof. vm_compute. reflexivity. Qed.

Example negative_index_panics :
  @transformValue sample.text (VString "1,0")
     (sample.mapping ".1.3" "Outlet" domain.OIDTypeCompositeSwitch 0%float
                     domain.HAComponentSwitch None "" (-1))
  = Panic "index out of range".
Proof. vm_compute. reflexivity. Qed.

Example composite_command_keeps_other_fields :
  @mqtt.handleCommand sample.text (fun entries => entries) sample.outlet2 "ON"
                      (Ret (VString "0,0,0"))
  = Ret (".1.3.6.1.4.1.17420.1.2.9.1.13.0", VString "0,1,0").
Proof. vm_compute. reflexivity. Qed.

(** * More properties of the code *)

Import poller.

(** ** The OID index and the request list of a cycle *)

Lemma foldl_groups_by_oid (l : list domain.OIDMapping) :
  forall (acc : gmap string (list domain.OIDMapping)) (k : string),
    foldl (fun acc mapping =>
             let normalizedOID := normalizeOID (domain.OID mapping) in
             <[normalizedOID := (default [] (acc !! normalizedOID) ++ [mapping])%list]> acc)
          acc l !! k
    = match filter (fun m => normalizeOID (domain.OID m) = k) l with
      | [] => acc !! k
      | ms => Some (default [] (acc !! k) ++ ms)%list
      end.
Proof.
  induction l as [| m l IH]; intros acc k; [reflexivity |].
  cbn [foldl]. rewrite IH. rewrite filter_cons.
  destruct (decide (normalizeOID (domain.OID m) = k)) as [Heq | Hne].
  - cbv zeta. rewrite Heq, lookup_insert_eq. cbn [default].
    destruct (filter _ l) as [| m' ms]; [reflexivity |].
    unfold id. by rewrite <- app_assoc.
  - cbv zeta. rewrite lookup_insert_ne by done. reflexivity.
Qed.

(** X1. The index [oidToMappings] that a poll cycle builds maps a
    normalized OID to exactly the mappings of the profile whose OID
    normalizes to it, in the order of the profile; an OID that no mapping
    uses has no entry. *)
Theorem buildOidToMappings_groups (p : domain.Profile) (k : string) :
  buildOidToMappings (Some p) !! k
  = match filter (fun m => normalizeOID (domain.OID m) = k) (domain.OIDMappings p) with
    | [] => None
    | ms => Some ms
    end.
Proof.
  unfold buildOidToMappings. rewrite foldl_groups_by_oid, lookup_empty. reflexivity.
Qed.

(** X2. The request list that [getOIDsToPoll] computes from a profile has
    no OID twice, and holds exactly the OIDs of the mappings that are due in
    this cycle and whose normalized OID is not known to be missing. *)
Theorem getOIDsToPoll_exact (env : Env) (dp : devicePoller) (p : domain.Profile) :
  range_ok env ->
  profile dp = Some p ->
  NoDup (getOIDsToPoll env dp)
  /\ forall x : string,
       x ∈ getOIDsToPoll env dp
       <-> exists m, m ∈ domain.OIDMappings p /\ domain.OID m = x
                     /\ due (pollCount dp) m
                     /\ normalizeOID (domain.OID m) ∉ missingOIDs dp.
Proof.
  intros Hrange Hp. unfold getOIDsToPoll. rewrite Hp. split.
  - rewrite (Hrange _). apply NoDup_elements.
  - intros x. rewrite (Hrange _), elem_of_elements, collectOIDs_spec.
    split; [intros [H | H]; [by apply not_elem_of_empty in H | exact H] | by right].
Qed.

Lemma getOIDsToPoll_exact_witness :
  NoDup (getOIDsToPoll sample.twoOutlets
           (sample.newPoller (sample.device "pdu1" "v2c") (Some sample.pduProfile)))
  /\ getOIDsToPoll sample.twoOutlets
       (sample.newPoller (sample.device "pdu1" "v2c") (Some sample.pduProfile))
     = [".1.3.6.1.4.1.17420.1.2.9.1.13.0"].
Proof.
  split; [| vm_compute; reflexivity].
  apply (getOIDsToPoll_exact sample.twoOutlets
           (sample.newPoller (sample.device "pdu1" "v2c") (Some sample.pduProfile))
           sample.pduProfile).
  - exact sample_range_ok.
  - reflexivity.
Defined.

Lemma chunks_partition (n : nat) :
  (0 < n)%nat ->
  forall (fuel : nat) (l : list string),
    (length l <= fuel)%nat ->
    concat (chunks fuel n l) = l
    /\ Forall (fun b => b <> [] /\ (length b <= n)%nat) (chunks fuel n l).
Proof.
  intros Hn. induction fuel as [| fuel IH]; intros l Hlen.
  - destruct l; [split; [reflexivity | constructor] | simpl in Hlen; lia].
  - destruct l as [| x l]; [split; [reflexivity | constructor] |].
    cbn [chunks]. destruct (IH (drop n (x :: l))) as [Hcat Hall].
    { rewrite length_drop. simpl in *. lia. }
    split.
    + cbn [concat]. rewrite Hcat. apply take_drop.
    + constructor; [| exact Hall]. split.
      * destruct n; [lia | discriminate].
      * rewrite length_take. lia.
Qed.

(** X3. The batching loop of a poll cycle loses and repeats nothing: the
    batches, one after the other, are the request list; no batch is empty
    and none is longer than the batch size, which is 1 for SNMPv1 and 10
    otherwise. *)
Theorem batches_partition_the_request_list (cl : GoSNMP) (oids : list string) :
  concat (batchesOf (batchSize cl) oids) = oids
  /\ Forall (fun b => b <> [] /\ (length b <= batchSize cl)%nat)
            (batchesOf (batchSize cl) oids)
  /\ batchSize cl = (if decide (Version cl = gosnmp.Version1) then 1 else 10)%nat.
Proof.
  assert (Hn : (0 < batchSize cl)%nat) by (unfold batchSize; case_decide; lia).
  destruct (chunks_partition _ Hn (length oids) oids (le_n _)) as [H1 H2].
  split; [exact H1 |]. split; [exact H2 | reflexivity].
Qed.

(** ** What a poll cycle keeps *)




Section cycle_props.
Context {text : GoText}.













End cycle_props.




(** ** A failed connect *)

Section connect_props.
Context {text : GoText}.



End connect_props.


(** ** The transformer outside scaling *)

Section transform_more.
Context {text : GoText}.

(** X8. [transformValue] never returns an error, and it panics in exactly
    one situation: a composite_switch mapping with a negative index applied
    to a string. *)
Theorem transformValue_panics_iff (v : value) (m : domain.OIDMapping) :
  (forall e, transformValue v m <> Fail e)
  /\ ((exists e, transformValue v m = Panic e)
      <-> domain.Type_ m = domain.OIDTypeCompositeSwitch
          /\ (exists s, v = VString s)
          /\ domain.CompositeIndex m < 0).
Proof.
  unfold transformValue.
  destruct (decide (domain.Type_ m = domain.OIDTypeCompositeSwitch)) as [Hty | Hty].
  - unfold extractCompositeValue.
    destruct v as [| n1 | n2 | n3 | n4 | n5 | f | s | b];
      try (split; [intros e; discriminate |];
           split; [intros [e He]; discriminate | intros (_ & [s Hs] & _); discriminate]).
    set (parts := strings.Split s _).
    destruct (Z.leb_spec (Z.of_nat (length parts)) (domain.CompositeIndex m)) as [Hle | Hlt].
    { split; [intros e; discriminate |].
      split; [intros [e He]; discriminate | intros (_ & _ & Hneg); lia]. }
    destruct (Z.ltb_spec (domain.CompositeIndex m) 0) as [Hneg | Hpos].
    { split; [intros e; discriminate |]. split; [| eauto]. intros _. eauto. }
    destruct (parts !! Z.to_nat (domain.CompositeIndex m)) as [part |] eqn:Hpart.
    + assert (Hret : exists r,
                match Sscanf_d (TrimSpace part) with
                | Some intVal =>
                    match domain.enumLookup (domain.EnumValues m) intVal with
                    | Some name => Ret (VString name)
                    | None => Ret (VInt intVal)
                    end
                | None => Ret (VString (TrimSpace part))
                end = Ret r).
      { destruct (Sscanf_d (TrimSpace part)) as [n |]; [| eauto].
        destruct (domain.enumLookup (domain.EnumValues m) n); eauto. }
      destruct Hret as [r ->].
      split; [intros e; discriminate |].
      split; [intros [e He]; discriminate | intros (_ & _ & Hneg); lia].
    + apply lookup_ge_None in Hpart. lia.
  - assert (Hret : exists r,
              match (if float64.nonzero (domain.Scale m) then numericValue v else None) with
              | Some x =>
                  if PrimFloat.ltb (domain.Scale m) float64.c0_01
                  then Ret (VFloat64 (PrimFloat.div
                              (float64.Round (PrimFloat.mul (PrimFloat.mul x (domain.Scale m))
                                                            1000)) 1000))
                  else Ret (VFloat64 (PrimFloat.div
                              (float64.Round (PrimFloat.mul (PrimFloat.mul x (domain.Scale m))
                                                            100)) 100))
              | None =>
                  if decide (domain.Type_ m = domain.OIDTypeEnum)
                  then match v with
                       | VInt n | VInt64 n =>
                           match domain.enumLookup (domain.EnumValues m) n with
                           | Some name => Ret (VString name)
                           | None => Ret v
                           end
                       | _ => Ret v
                       end
                  else Ret v
              end = Ret r).
    { destruct (if float64.nonzero (domain.Scale m) then numericValue v else None).
      - destruct (PrimFloat.ltb _ _); eauto.
      - destruct (decide _); [| eauto].
        destruct v; eauto; destruct (domain.enumLookup _ _); eauto. }
    destruct Hret as [r Hr]. cbv zeta. rewrite Hr.
    split; [intros e; discriminate |].
    split; [intros [e He]; discriminate | intros (Hc & _); contradiction].
Qed.

(** X9. Without a scale, a mapping that is not a composite switch changes
    a raw value only by the enum lookup: an enum mapping turns an int or
    int64 that has a label into the label; every other raw value, with any
    other type of mapping, comes out as it went in. *)
Theorem transformValue_without_scale (v : value) (m : domain.OIDMapping) :
  domain.Type_ m <> domain.OIDTypeCompositeSwitch ->
  float64.nonzero (domain.Scale m) = false ->
  (domain.Type_ m <> domain.OIDTypeEnum -> transformValue v m = Ret v)
  /\ (domain.Type_ m = domain.OIDTypeEnum ->
      (forall n name,
          v = VInt n \/ v = VInt64 n ->
          domain.enumLookup (domain.EnumValues m) n = Some name ->
          transformValue v m = Ret (VString name))
      /\ (forall n,
             v = VInt n \/ v = VInt64 n ->
             domain.enumLookup (domain.EnumValues m) n = None ->
             transformValue v m = Ret v)
      /\ ((forall n, v <> VInt n /\ v <> VInt64 n) -> transformValue v m = Ret v)).
Proof.
  intros Hty Hz. unfold transformValue.
  destruct (decide (domain.Type_ m = domain.OIDTypeCompositeSwitch)) as [Hc | Hc];
    [done |].
  rewrite Hz. split.
  - intros Hne.
    destruct (decide (domain.Type_ m = domain.OIDTypeEnum)) as [He | He]; done.
  - intros He.
    destruct (decide (domain.Type_ m = domain.OIDTypeEnum)) as [He' | He']; [| done].
    split; [| split].
    + intros n name [-> | ->] Hl; by rewrite Hl.
    + intros n [-> | ->] Hl; by rewrite Hl.
    + intros Hn. destruct v as [| i | i | | | | | |]; try reflexivity.
      * destruct (Hn i) as [H _]. done.
      * destruct (Hn i) as [_ H]. done.
Qed.

Lemma at_key_insert_ne (values : gmap string value) k k' x :
  k <> k' -> at_key (<[k := x]> values) k' = at_key values k'.
Proof. intros H. unfold at_key. by rewrite lookup_insert_ne. Qed.

(** X10. [calculateDerivedValues] writes at most the key "Active Power",
    leaves a reported power that is not zero alone, and applying it twice
    gives what applying it once gives. *)
Theorem calculateDerivedValues_idempotent (values : gmap string value) :
  calculateDerivedValues (calculateDerivedValues values) = calculateDerivedValues values
  /\ (forall k, k <> "Active Power" -> calculateDerivedValues values !! k = values !! k)
  /\ (PrimFloat.eqb (toFloat64 (at_key values "Active Power")) PrimFloat.zero = false ->
      calculateDerivedValues values = values).
Proof.
  split; [| split].
  - assert (H1 : calculateDerivedValues values
                 = if PrimFloat.eqb (toFloat64 (at_key values "Active Power")) PrimFloat.zero
                   then
                     if PrimFloat.ltb PrimFloat.zero (toFloat64 (at_key values "Voltage"))
                        && PrimFloat.ltb PrimFloat.zero
                             (toFloat64 (at_key values "Total Current"))
                     then <["Active Power" :=
                             VFloat64 (PrimFloat.div
                               (float64.Round
                                  (PrimFloat.mul
                                     (PrimFloat.mul (toFloat64 (at_key values "Voltage"))
                                        (toFloat64 (at_key values "Total Current"))) 10))
                               10)]> values
                     else values
                   else values) by reflexivity.
    destruct (PrimFloat.eqb (toFloat64 (at_key values "Active Power")) PrimFloat.zero)
      eqn:Hp; [| by rewrite !H1].
    destruct (PrimFloat.ltb PrimFloat.zero (toFloat64 (at_key values "Voltage"))
              && PrimFloat.ltb PrimFloat.zero (toFloat64 (at_key values "Total Current")))
      eqn:Hvi; [| by rewrite !H1].
    rewrite H1. unfold calculateDerivedValues.
    rewrite (at_key_insert_ne _ "Active Power" "Voltage") by discriminate.
    rewrite (at_key_insert_ne _ "Active Power" "Total Current") by discriminate.
    rewrite Hvi.
    match goal with |- context [if ?b then _ else _] => destruct b end; [| reflexivity].
    by rewrite insert_insert_eq.
  - intros k Hk. by apply calculateDerivedValues_other.
  - intros Hp. unfold calculateDerivedValues. rewrite Hp. reflexivity.
Qed.

End transform_more.

Lemma transformValue_without_scale_witness :
  @transformValue sample.text (VInt 2) sample.apcOutlet = Ret (VInt 2).
Proof.
  destruct (@transformValue_without_scale sample.text (VInt 2) sample.apcOutlet)
    as [H _]; [vm_compute; discriminate | vm_compute; reflexivity |].
  apply H. vm_compute. discriminate.
Defined.

(** ** The event bus and the state table *)

(** X11. [updateState] offers its event to every subscriber without
    blocking: a channel with fewer than 100 pending events receives it as
    its newest, a full channel is left as it is and the event is dropped for
    that subscriber only. The number of subscribers and the table of pollers
    do not change. *)
Theorem updateState_delivers_or_drops
    (s : PollerService) (id : string) (values : option (gmap string value))
    (online : bool) (errors : list string) (tPoll tEvent : Z) :
  let '(s', e) := updateState s id values online errors tPoll tEvent in
  length (subscribers s') = length (subscribers s)
  /\ devices s' = devices s
  /\ forall i ch,
       subscribers s !! i = Some ch ->
       ((length ch < 100)%nat -> subscribers s' !! i = Some (ch ++ [e])%list)
       /\ ((100 <= length ch)%nat -> subscribers s' !! i = Some ch).
Proof.
  unfold updateState. cbn [subscribers devices].
  split; [by rewrite length_fmap |]. split; [reflexivity |].
  intros i ch Hi. rewrite list_lookup_fmap, Hi. cbn [fmap option_fmap option_map].
  unfold trySend. split; intros Hlen.
  - destruct (Nat.ltb_spec (length ch) 100); [reflexivity | lia].
  - destruct (Nat.ltb_spec (length ch) 100); [lia | reflexivity].
Qed.

(** X12. What is stored for one device never changes through operations on
    others: a run of state operations that all aim at other devices leaves
    the device's state entry exactly as it was. *)
Theorem other_devices_leave_the_state_alone
    (id : string) (ops : list StoreOp) (s : PollerService) :
  Forall (fun op => target op <> id) ops ->
  states (runStore s ops).1 !! id = states s !! id.
Proof.
  intros Hall. revert s. induction Hall as [| op ops Hop _ IH]; intros s; [reflexivity |].
  destruct op as [id' values online errors tPoll tEvent | id' | id']; simpl in Hop.
  - rewrite runStore_update_fst, IH. unfold updateState. cbn [fst states].
    by rewrite lookup_insert_ne.
  - cbn [runStore]. rewrite IH. unfold initState. cbn [states].
    by rewrite lookup_insert_ne.
  - cbn [runStore]. rewrite IH. unfold deleteState. cbn [states].
    by rewrite lookup_delete_ne.
Qed.

Lemma other_devices_leave_the_state_alone_witness :
  states (runStore (initState NewPollerService "ups1")
            [OpUpdate "pdu1" (Some {["Load" := VInt 40]}) true [] 1 1; OpDelete "pdu1"]).1
    !! "ups1"
  = states (initState NewPollerService "ups1") !! "ups1".
Proof.
  apply other_devices_leave_the_state_alone.
  repeat constructor; discriminate.
Defined.

(** ** Device management *)

(** X13. Adding a device that the poller already knows changes nothing:
    no second goroutine, no reset of the state; so adding the same device
    twice is adding it once. *)
Theorem AddDevice_twice (sys : System) (d d' : domain.Device)
    (p p' : option domain.Profile) :
  domain.DevID d' = domain.DevID d ->
  AddDevice (AddDevice sys d p) d' p' = AddDevice sys d p.
Proof.
  intros Hid. unfold AddDevice at 1. rewrite Hid.
  assert (H : is_Some (devices (svc (AddDevice sys d p)) !! domain.DevID d)).
  { unfold AddDevice. destruct (devices (svc sys) !! domain.DevID d) eqn:E.
    - rewrite E. eauto.
    - cbn. rewrite lookup_insert_eq. eauto. }
  destruct H as [h ->]. reflexivity.
Qed.

Lemma AddDevice_twice_witness :
  AddDevice (AddDevice initial (sample.device "ups1" "v2c") None)
            (sample.device "ups1" "v1") (Some sample.pduProfile)
  = AddDevice initial (sample.device "ups1" "v2c") None.
Proof. apply AddDevice_twice. reflexivity. Defined.

Lemma RemoveDevice_tables sys id :
  devices (svc (RemoveDevice sys id)) = delete id (devices (svc sys))
  /\ states (svc (RemoveDevice sys id)) = delete id (states (svc sys))
  /\ subscribers (svc (RemoveDevice sys id)) = subscribers (svc sys)
  /\ length (routines (RemoveDevice sys id)) = length (routines sys).
Proof.
  unfold RemoveDevice. destruct (devices (svc sys) !! id) as [h |] eqn:E; cbn.
  - repeat split. destruct (routines sys !! h); [apply length_insert | reflexivity].
  - repeat split. symmetry. by apply delete_id.
Qed.

(** X14. After [RemoveDevice] the device is in neither table, so that
    [GetDeviceState] answers nil for it; the other devices keep their entries, no event was emitted and no goroutine was
    added or dropped; removing it a second time changes nothing. *)
Theorem RemoveDevice_forgets_the_device (sys : System) (id : string) :
  devices (svc (RemoveDevice sys id)) !! id = None
  /\ GetDeviceState (svc (RemoveDevice sys id)) id = None
  /\ (forall id', id' <> id ->
        devices (svc (RemoveDevice sys id)) !! id' = devices (svc sys) !! id'
        /\ states (svc (RemoveDevice sys id)) !! id' = states (svc sys) !! id')
  /\ emitted (RemoveDevice sys id) = emitted sys
  /\ length (routines (RemoveDevice sys id)) = length (routines sys)
  /\ RemoveDevice (RemoveDevice sys id) id = RemoveDevice sys id.
Proof.
  destruct (RemoveDevice_tables sys id) as (Hd & Hs & Hsub & Hlen).
  split; [rewrite Hd; apply lookup_delete_eq |].
  split; [unfold GetDeviceState; rewrite Hs; apply lookup_delete_eq |].
  split.
  { intros id' Hne. rewrite Hd, Hs. by rewrite !lookup_delete_ne. }
  split; [apply RemoveDevice_emitted |]. split; [exact Hlen |].
  assert (Hnone : devices (svc (RemoveDevice sys id)) !! id = None)
    by (rewrite Hd; apply lookup_delete_eq).
  assert (Hgone : states (svc (RemoveDevice sys id)) !! id = None)
    by (rewrite Hs; apply lookup_delete_eq).
  unfold RemoveDevice at 1. rewrite Hnone.
  destruct (RemoveDevice sys id) as [[dv st sb] rs em]. cbn in *.
  unfold deleteState. cbn. by rewrite (delete_id _ _ Hgone).
Qed.

(** X15. [UpdateDevice] of an enabled device rebinds it from scratch: the
    device gets a new goroutine that starts with the initial poll, a poller
    with poll count 0, no socket and an empty set of missing OIDs, and an
    empty state; the stop channel of the goroutine it had is closed. For a
    disabled device it is the removal alone. *)
Theorem UpdateDevice_rebinds (sys : System) (d : domain.Device)
    (p : option domain.Profile) :
  let id := domain.DevID d in
  let sys' := UpdateDevice sys d p in
  (domain.Enabled d = false -> sys' = RemoveDevice sys id)
  /\ (domain.Enabled d = true ->
      devices (svc sys') !! id = Some (length (routines sys))
      /\ routines sys' !! length (routines sys)
         = Some {| rDp := {| device := d; profile := p; client := None; pollCount := 0;
                             missingOIDs := ∅ |};
                   rPc := InPoll; rStop := false; rNet := O |}
      /\ states (svc sys') !! id = Some (newState id)
      /\ forall h0 r0,
           devices (svc sys) !! id = Some h0 ->
           routines sys !! h0 = Some r0 ->
           exists r0', routines sys' !! h0 = Some r0'
                       /\ rStop r0' = true /\ rDp r0' = rDp r0 /\ rPc r0' = rPc r0).
Proof.
  intros id sys'. subst sys'. unfold UpdateDevice. fold id. split.
  - intros ->. reflexivity.
  - intros ->.
    destruct (RemoveDevice_tables sys id) as (Hd & Hs & _ & Hlen).
    assert (Hnone : devices (svc (RemoveDevice sys id)) !! id = None)
      by (rewrite Hd; apply lookup_delete_eq).
    unfold AddDevice. fold id. rewrite Hnone. cbn [svc devices states routines initState].
    rewrite Hlen.
    split; [apply lookup_insert_eq |].
    split; [rewrite <- Hlen; by apply list_lookup_middle |].
    split; [apply lookup_insert_eq |].
    intros h0 r0 Hh0 Hr0.
    assert (Hold : routines (RemoveDevice sys id) !! h0
                   = Some {| rDp := rDp r0; rPc := rPc r0; rStop := true; rNet := rNet r0 |}).
    { unfold RemoveDevice. rewrite Hh0, Hr0. cbn.
      apply list_lookup_insert_eq. by eapply lookup_lt_Some. }
    eexists. split; [apply lookup_app_l_Some; exact Hold |]. by repeat split.
Qed.

Lemma UpdateDevice_rebinds_witness :
  devices (svc (UpdateDevice (AddDevice initial (sample.device "ups1" "v2c") None)
                             (sample.device "ups1" "v1") (Some sample.pduProfile)))
    !! "ups1" = Some 1%nat.
Proof.
  destruct (UpdateDevice_rebinds (AddDevice initial (sample.device "ups1" "v2c") None)
              (sample.device "ups1" "v1") (Some sample.pduProfile)) as [_ H].
  destruct (H eq_refl) as (Hd & _). exact Hd.
Defined.

Section table_props.
Context {text : GoText}.







End table_props.



(** ** Traps: the device and the variables *)

Lemma find_first {A : Type} (f : A -> bool) (l : list A) (x : A) :
  List.find f l = Some x ->
  exists pre post, l = (pre ++ x :: post)%list /\ f x = true
                   /\ Forall (fun y => f y = false) pre.
Proof.
  induction l as [| y l IH]; simpl; [discriminate |].
  destruct (f y) eqn:Hy.
  - intros [= ->]. exists [], l. by repeat split.
  - intros H. destruct (IH H) as (pre & post & -> & Hx & Hpre).
    exists (y :: pre), post. split; [reflexivity |]. split; [exact Hx |].
    by constructor.
Qed.

Lemma find_none_all {A : Type} (f : A -> bool) (l : list A) :
  List.find f l = None -> Forall (fun y => f y = false) l.
Proof.
  induction l as [| y l IH]; simpl; [constructor |].
  destruct (f y) eqn:Hy; [discriminate |]. intros H. constructor; [exact Hy | by apply IH].
Qed.

Section trap_more.
Context {text : GoText}.

(** X18. The TrapLog of a trap names the first device of the repository's
    list whose address is the trap's source address; it names no device
    when the list has none with that address or the repository failed. The
    source address, the id and the time are the ones handed in. *)
Theorem trap_names_first_device_with_the_address
    (devices : option (list domain.Device)) (packet : list gosnmp.SnmpPDU)
    (ip id : string) (now : Z) (log : domain.TrapLog) :
  worker.handleTrap devices packet ip id now = Ret log ->
  domain.SourceIP log = ip /\ domain.TrapID log = id /\ domain.ReceivedAt log = now
  /\ match domain.TrapDeviceID log with
     | Some dev =>
         exists ds pre d post,
           devices = Some ds /\ ds = (pre ++ d :: post)%list
           /\ domain.IPAddress d = ip /\ domain.DevID d = dev
           /\ Forall (fun d' => domain.IPAddress d' <> ip) pre
     | None =>
         devices = None
         \/ exists ds, devices = Some ds
                       /\ Forall (fun d' => domain.IPAddress d' <> ip) ds
     end.
Proof.
  unfold worker.handleTrap. intros Hrun.
  destruct (worker.scanVariables packet "" ∅) as [[trapOID variables] | |];
    simpl in Hrun; try discriminate.
  inversion Hrun; subst log; clear Hrun. cbn.
  split; [reflexivity |]. split; [reflexivity |]. split; [reflexivity |].
  destruct devices as [ds |]; [| by left].
  unfold worker.findDevice.
  destruct (List.find _ ds) as [d |] eqn:Hfind; cbn.
  - apply find_first in Hfind as (pre & post & -> & Hd & Hpre).
    exists (pre ++ d :: post)%list, pre, d, post.
    split; [reflexivity |]. split; [reflexivity |].
    split; [by apply bool_decide_eq_true in Hd |]. split; [reflexivity |].
    eapply Forall_impl; [exact Hpre |]. intros d' Hd'.
    by apply bool_decide_eq_false in Hd'.
  - right. exists ds. split; [reflexivity |].
    apply find_none_all in Hfind. eapply Forall_impl; [exact Hfind |].
    intros d' Hd'. by apply bool_decide_eq_false in Hd'.
Qed.

Lemma scanVariables_spec vars :
  forall oid0 (vs0 : gmap string value) oid vs,
    worker.scanVariables vars oid0 vs0 = Ret (oid, vs) ->
    (forall k, is_Some (vs !! k)
               <-> is_Some (vs0 !! k)
                   \/ (k <> worker.snmpTrapOID
                       /\ exists var, var ∈ vars /\ gosnmp.Name var = k))
    /\ (oid = oid0
        \/ exists var, var ∈ vars /\ gosnmp.Name var = worker.snmpTrapOID
                       /\ worker.parseVariable var = Ret (VString oid)).
Proof.
  induction vars as [| var vars IH]; intros oid0 vs0 oid vs Hrun; simpl in Hrun.
  - inversion Hrun; subst. split; [| by left].
    intros k. split; [by left |]. intros [H | (_ & var & Hin & _)]; [done |].
    by apply elem_of_nil in Hin.
  - destruct (worker.parseVariable var) as [v | |] eqn:Hv; simpl in Hrun; try discriminate.
    destruct (decide (gosnmp.Name var = worker.snmpTrapOID)) as [Heq | Hne].
    + assert (Hcases : exists oid1,
                worker.scanVariables vars oid1 vs0 = Ret (oid, vs)
                /\ (oid1 = oid0 \/ v = VString oid1)).
      { destruct v; eauto. }
      destruct Hcases as (oid1 & Hrun1 & Hoid1).
      destruct (IH _ _ _ _ Hrun1) as [Hkeys Hoid]. split.
      * intros k. rewrite Hkeys. split.
        -- intros [H | (Hk & var' & Hin & Hname)]; [by left |].
           right. split; [exact Hk |]. exists var'. split; [by right | exact Hname].
        -- intros [H | (Hk & var' & Hin & Hname)]; [by left |].
           apply elem_of_cons in Hin as [-> | Hin]; [congruence |].
           right. split; [exact Hk |]. eauto.
      * destruct Hoid as [-> | (var' & Hin & Hname & Hp)].
        -- destruct Hoid1 as [-> | ->]; [by left |].
           right. exists var. split; [left |]. split; [exact Heq | exact Hv].
        -- right. exists var'. split; [by right |]. split; [exact Hname | exact Hp].
    + destruct (IH _ _ _ _ Hrun) as [Hkeys Hoid]. split.
      * intros k. rewrite Hkeys. split.
        -- intros [H | (Hk & var' & Hin & Hname)].
           ++ destruct (decide (gosnmp.Name var = k)) as [<- | Hk].
              ** right. split; [exact Hne |]. exists var. split; [left | reflexivity].
              ** left. by rewrite lookup_insert_ne in H.
           ++ right. split; [exact Hk |]. exists var'. split; [by right | exact Hname].
        -- intros [H | (Hk & var' & Hin & Hname)].
           ++ left. destruct (decide (gosnmp.Name var = k)) as [<- | Hk'].
              ** rewrite lookup_insert_eq. eauto.
              ** by rewrite lookup_insert_ne.
           ++ apply elem_of_cons in Hin as [-> | Hin].
              ** left. rewrite Hname, lookup_insert_eq. eauto.
              ** right. split; [exact Hk |]. eauto.
      * destruct Hoid as [-> | (var' & Hin & Hname & Hp)]; [by left |].
        right. exists var'. split; [by right |]. split; [exact Hname | exact Hp].
Qed.

(** X19. The variables of a TrapLog are exactly the bindings of the packet
    other than the trap OID binding, which is never among them; the trap
    OID is the string of a trap OID binding of the packet, and empty when
    the packet has none. *)
Theorem trap_variables_exclude_the_trap_oid
    (devices : option (list domain.Device)) (packet : list gosnmp.SnmpPDU)
    (ip id : string) (now : Z) (log : domain.TrapLog) :
  worker.handleTrap devices packet ip id now = Ret log ->
  domain.Variables log !! worker.snmpTrapOID = None
  /\ (forall k, is_Some (domain.Variables log !! k)
                <-> k <> worker.snmpTrapOID
                    /\ exists var, var ∈ packet /\ gosnmp.Name var = k)
  /\ (domain.TrapOID log = ""
      \/ exists var, var ∈ packet /\ gosnmp.Name var = worker.snmpTrapOID
                     /\ worker.parseVariable var = Ret (VString (domain.TrapOID log))).
Proof.
  unfold worker.handleTrap. intros Hrun.
  destruct (worker.scanVariables packet "" ∅) as [[trapOID variables] | |] eqn:Hscan;
    simpl in Hrun; try discriminate.
  inversion Hrun; subst log; clear Hrun. cbn.
  destruct (scanVariables_spec _ _ _ _ _ Hscan) as [Hkeys Hoid].
  assert (Hiff : forall k, is_Some (variables !! k)
                 <-> k <> worker.snmpTrapOID
                     /\ exists var, var ∈ packet /\ gosnmp.Name var = k).
  { intros k. rewrite Hkeys. split; [| by right].
    intros [H | H]; [| exact H]. rewrite lookup_empty in H. by destruct H. }
  split; [| split; [exact Hiff | exact Hoid]].
  apply eq_None_not_Some. intros H. apply Hiff in H as [H _]. done.
Qed.

End trap_more.

Lemma trap_names_first_device_with_the_address_witness :
  exists log,
    @worker.handleTrap sample.text (Some [sample.device "ups1" "v2c"])
                       sample.onBatteryTrap "10.0.0.7" "id" 0 = Ret log
    /\ domain.SourceIP log = "10.0.0.7".
Proof.
  destruct (@worker.handleTrap sample.text (Some [sample.device "ups1" "v2c"])
              sample.onBatteryTrap "10.0.0.7" "id" 0) as [log | e | e] eqn:Hrun.
  - exists log. split; [reflexivity |].
    exact (proj1 (@trap_names_first_device_with_the_address sample.text _ _ _ _ _ _ Hrun)).
  - vm_compute in Hrun. discriminate.
  - vm_compute in Hrun. discriminate.
Defined.

Lemma trap_variables_exclude_the_trap_oid_witness :
  exists log,
    @worker.handleTrap sample.text (Some [sample.device "ups1" "v2c"])
                       sample.onBatteryTrap "10.0.0.7" "id" 0 = Ret log
    /\ domain.Variables log !! worker.snmpTrapOID = None.
Proof.
  destruct (@worker.handleTrap sample.text (Some [sample.device "ups1" "v2c"])
              sample.onBatteryTrap "10.0.0.7" "id" 0) as [log | e | e] eqn:Hrun.
  - exists log. split; [reflexivity |].
    exact (proj1 (@trap_variables_exclude_the_trap_oid sample.text _ _ _ _ _ _ Hrun)).
  - vm_compute in Hrun. discriminate.
  - vm_compute in Hrun. discriminate.
Defined.

(** ** Options of a select entity, for every order of the range *)




(** X23. Whatever order the range over enumValues takes, the options of a
    select entity are the labels of enumValues: every label is offered and
    nothing else is. *)
Theorem select_options_are_the_labels
    (order : list (Z * string) -> list (Z * string)) (m : domain.OIDMapping)
    (opts : list string) :
  (forall entries : list (Z * string), order entries ≡ₚ entries) ->
  mqtt.selectOptions order m = Some opts ->
  forall v, v ∈ opts <-> exists k, domain.enumLookup (domain.EnumValues m) k = Some v.
Proof.
  intros Horder Hopts. exact (proj1 (selectOptions_labels order m opts Horder Hopts)).
Qed.

Lemma select_options_are_the_labels_witness :
  mqtt.selectOptions (@rev (Z * string)) sample.sparseSelect = Some ["On"; "Off"; "Reboot"]
  /\ exists k, domain.enumLookup (domain.EnumValues sample.sparseSelect) k = Some "Reboot".
Proof.
  split; [vm_compute; reflexivity |].
  apply (proj1 (select_options_are_the_labels (@rev (Z * string)) sample.sparseSelect
                  ["On"; "Off"; "Reboot"]
                  (fun entries => symmetry (Permutation_rev entries))
                  eq_refl "Reboot")).
  set_solver.
Defined.

(** ** Entity identifiers and command topics *)

Lemma keepAllowed_onlyAllowed s : discovery.onlyAllowed (discovery.keepAllowed s).
Proof.
  unfold discovery.onlyAllowed. induction s as [| c s IH]; simpl; [constructor |].
  destruct (discovery.allowed c) eqn:Hc; [| exact IH]. simpl. by constructor.
Qed.

Lemma keepAllowed_id s : discovery.onlyAllowed s -> discovery.keepAllowed s = s.
Proof.
  unfold discovery.onlyAllowed. induction s as [| c s IH]; simpl; [reflexivity |].
  intros H. inversion H as [| ? ? Hc Hs]; subst. rewrite Hc. f_equal. by apply IH.
Qed.

Lemma replaceByte_id old new s :
  discovery.allowed old = false ->
  discovery.onlyAllowed s -> discovery.replaceByte old new s = s.
Proof.
  unfold discovery.onlyAllowed. intros Hold.
  induction s as [| c s IH]; simpl; [reflexivity |].
  intros H. inversion H as [| ? ? Hc Hs]; subst.
  destruct (Ascii.eqb_spec c old) as [-> | Hne]; [congruence |].
  f_equal. by apply IH.
Qed.

(** X21. An entity id has only lower-case letters, digits and underscores,
    so it holds no slash and no MQTT wildcard and is one topic level; and
    sanitizing is idempotent, given that ToLower leaves such a string as it
    is. *)
Theorem sanitizeEntityID_is_a_topic_level (case : GoCase) (name : string) :
  discovery.onlyAllowed (discovery.sanitizeEntityID name)
  /\ (forall c, c ∈ list_ascii_of_string (discovery.sanitizeEntityID name) ->
                c <> "/"%char /\ c <> "+"%char /\ c <> "#"%char)
  /\ ((forall s, discovery.onlyAllowed s -> ToLower s = s) ->
      discovery.sanitizeEntityID (discovery.sanitizeEntityID name)
      = discovery.sanitizeEntityID name).
Proof.
  assert (Hok : discovery.onlyAllowed (discovery.sanitizeEntityID name))
    by apply keepAllowed_onlyAllowed.
  split; [exact Hok |]. split.
  - intros c Hc. unfold discovery.onlyAllowed in Hok.
    rewrite Forall_forall in Hok. pose proof (Hok c Hc) as Hall.
    repeat split; intros ->; vm_compute in Hall; discriminate.
  - intros Hlow. unfold discovery.sanitizeEntityID at 1.
    rewrite (Hlow _ Hok).
    rewrite (replaceByte_id " " "_" _ eq_refl Hok).
    rewrite (replaceByte_id "-" "_" _ eq_refl Hok).
    rewrite (replaceByte_id "." "_" _ eq_refl Hok).
    by apply keepAllowed_id.
Qed.

Lemma lower_id s : discovery.onlyAllowed s -> samples.lower s = s.
Proof.
  unfold discovery.onlyAllowed. induction s as [| c s IH]; simpl; [reflexivity |].
  intros H. inversion H as [| ? ? Hc Hs]; subst. rewrite (IH Hs). f_equal.
  unfold samples.lowerByte, discovery.allowed in *.
  destruct (N.leb_spec 65 (N_of_ascii c)); [| reflexivity].
  destruct (N.leb_spec (N_of_ascii c) 90); [| reflexivity].
  exfalso. revert Hc.
  destruct (N.leb_spec 97 (N_of_ascii c)); [lia |].
  destruct (N.leb_spec 48 (N_of_ascii c)); [| cbn; destruct (N.eqb_spec (N_of_ascii c) 95); [lia | discriminate]].
  destruct (N.leb_spec (N_of_ascii c) 57); [lia |].
  cbn. destruct (N.eqb_spec (N_of_ascii c) 95); [lia | discriminate].
Qed.

Lemma sanitizeEntityID_is_a_topic_level_witness :
  @discovery.sanitizeEntityID samples.case "Outlet 1 - Load.A" = "outlet_1___load_a"
  /\ @discovery.sanitizeEntityID samples.case
       (@discovery.sanitizeEntityID samples.case "Outlet 1 - Load.A")
     = @discovery.sanitizeEntityID samples.case "Outlet 1 - Load.A".
Proof.
  split; [vm_compute; reflexivity |].
  apply (sanitizeEntityID_is_a_topic_level samples.case "Outlet 1 - Load.A").
  intros s Hs. exact (lower_id s Hs).
Defined.

Lemma str_app_cons (x : ascii) (a b : string) : String x a ++ b = String x (a ++ b).
Proof. reflexivity. Qed.

Lemma str_app_nil_l (b : string) : "" ++ b = b.
Proof. reflexivity. Qed.

Lemma str_length_app (a b : string) :
  String.length (a ++ b) = (String.length a + String.length b)%nat.
Proof.
  induction a as [| c a IH]; [reflexivity |].
  rewrite str_app_cons. simpl. by rewrite IH.
Qed.

Lemma str_app_assoc (a b c : string) : (a ++ b) ++ c = a ++ (b ++ c).
Proof.
  induction a as [| x a IH]; [reflexivity |].
  rewrite !str_app_cons. by rewrite IH.
Qed.

Lemma str_app_nil_r (a : string) : a ++ "" = a.
Proof.
  induction a as [| x a IH]; [reflexivity |].
  rewrite str_app_cons. by rewrite IH.
Qed.

Lemma sliceFrom_app (a b : string) (n : nat) :
  client.sliceFrom (String.length a + n) (a ++ b) = client.sliceFrom n b.
Proof.
  induction a as [| c a IH]; [reflexivity |].
  rewrite str_app_cons. simpl. exact IH.
Qed.

Lemma untilSlash_app (e rest : string) :
  (forall c, c ∈ list_ascii_of_string e -> c <> "/"%char) ->
  client.untilSlash (e ++ String "/" rest) = e.
Proof.
  induction e as [| c e IH]; intros Hno; [reflexivity |].
  rewrite str_app_cons. simpl.
  destruct (Ascii.eqb_spec c "/") as [-> | Hne].
  - exfalso. apply (Hno "/"%char); [left | reflexivity].
  - f_equal. apply IH. intros c' Hc'. apply Hno. by right.
Qed.

Lemma onlyAllowed_no_slash s :
  discovery.onlyAllowed s -> forall c, c ∈ list_ascii_of_string s -> c <> "/"%char.
Proof.
  unfold discovery.onlyAllowed. rewrite Forall_forall. intros Hok c Hc ->.
  specialize (Hok _ Hc). vm_compute in Hok. discriminate.
Qed.

Lemma extractEntityID_commandTopic (topicPrefix deviceID entityID : string) :
  (forall c, c ∈ list_ascii_of_string entityID -> c <> "/"%char) ->
  client.extractEntityID (discovery.commandTopic topicPrefix deviceID entityID)
                         topicPrefix deviceID
  = Ret entityID.
Proof.
  intros Hno. unfold client.extractEntityID, discovery.commandTopic.
  destruct (Nat.ltb_spec
              (String.length (topicPrefix ++ "/" ++ deviceID ++ "/" ++ entityID ++ "/set"))
              (String.length topicPrefix + 1 + String.length deviceID + 1)) as [Hlt | _].
  { rewrite !str_length_app in Hlt. simpl in Hlt. lia. }
  f_equal.
  replace (String.length topicPrefix + 1 + String.length deviceID + 1)%nat
    with (String.length topicPrefix + S (String.length deviceID + 1))%nat by lia.
  rewrite sliceFrom_app, str_app_cons, str_app_nil_l. cbn [client.sliceFrom].
  rewrite sliceFrom_app, str_app_cons, str_app_nil_l. cbn [client.sliceFrom].
  change "/set" with (String "/" "set"). by apply untilSlash_app.
Qed.

(** X22. The command topic that the discovery announces for a writable
    mapping leads back to the mapping: from that topic [extractEntityID]
    returns the mapping's entity id, whatever the topic prefix, the device
    id and the mapping's name contain, and it does not panic. *)
Theorem command_topic_leads_back_to_the_entity
    (case : GoCase) (topicPrefix : string) (device : domain.Device)
    (mapping : domain.OIDMapping) (topic : string) :
  discovery.mappingCommandTopic topicPrefix device mapping = Some topic ->
  client.extractEntityID topic topicPrefix (domain.DevID device)
  = Ret (discovery.sanitizeEntityID (domain.Name mapping)).
Proof.
  unfold discovery.mappingCommandTopic.
  destruct (domain.Writable mapping); [| discriminate]. intros [= <-].
  apply extractEntityID_commandTopic.
  apply onlyAllowed_no_slash, keepAllowed_onlyAllowed.
Qed.

Lemma command_topic_leads_back_to_the_entity_witness :
  client.extractEntityID "snmp/ups1/outlet_1/set" "snmp" "ups1" = Ret "outlet_1".
Proof.
  apply (command_topic_leads_back_to_the_entity samples.case "snmp"
           (sample.device "ups1" "v2c") sample.apcOutlet "snmp/ups1/outlet_1/set").
  vm_compute. reflexivity.
Defined.

(** ** Commands *)

Lemma switchKey_other (payloadUpper : string) (entries : list (Z * string)) :
  payloadUpper <> "ON" -> payloadUpper <> "OFF" ->
  mqtt.switchKey payloadUpper entries = None.
Proof.
  intros Hon Hoff. induction entries as [| [k v] entries IH]; simpl; [reflexivity |].
  rewrite (bool_decide_eq_false_2 _ Hon), (bool_decide_eq_false_2 _ Hoff).
  rewrite !andb_false_r. exact IH.
Qed.

(** X24. A switch command whose payload is neither ON nor OFF, in any
    case, is not rejected: it is sent as OFF. The value of the SET is 2
    for a switch and the field written is 0 for a composite switch,
    whatever enumValues holds. *)
Theorem unknown_switch_payload_is_sent_as_off
    (text : GoText) (order : list (Z * string) -> list (Z * string))
    (m : domain.OIDMapping) (payload : string) :
  strings.ToUpper payload <> "ON" ->
  strings.ToUpper payload <> "OFF" ->
  (domain.HAComponent_ m = domain.HAComponentSwitch ->
   mqtt.convertPayloadToSNMPValue order payload m = Ret (VInt 2))
  /\ mqtt.compositeNewValue order payload m = "0".
Proof.
  intros Hon Hoff. split.
  - intros Hsw. unfold mqtt.convertPayloadToSNMPValue.
    destruct (decide (domain.HAComponent_ m = domain.HAComponentSwitch)) as [_ | Hne];
      [| contradiction].
    rewrite (switchKey_other _ _ Hon Hoff).
    destruct (decide (strings.ToUpper payload = "ON")) as [Heq | _]; [contradiction |].
    reflexivity.
  - unfold mqtt.compositeNewValue. rewrite (switchKey_other _ _ Hon Hoff).
    destruct (decide ("" = "")) as [_ | Hne]; [| contradiction].
    destruct (decide (strings.ToUpper payload = "ON")) as [Heq | _]; [contradiction |].
    reflexivity.
Qed.

Lemma unknown_switch_payload_is_sent_as_off_witness :
  @mqtt.convertPayloadToSNMPValue sample.text (fun entries => entries) "toggle"
                                  sample.apcOutlet
  = Ret (VInt 2)
  /\ mqtt.compositeNewValue (fun entries => entries) "toggle" sample.outlet2 = "0".
Proof.
  split.
  - apply (unknown_switch_payload_is_sent_as_off sample.text (fun entries => entries)
             sample.apcOutlet "toggle"); [vm_compute; discriminate .. | reflexivity].
  - apply (unknown_switch_payload_is_sent_as_off sample.text (fun entries => entries)
             sample.outlet2 "toggle"); vm_compute; discriminate.
Defined.

(** *** Splitting and joining at a one-byte separator *)

Lemma splitFrom_byte (c x : ascii) (s cur : string) :
  strings.splitFrom (String c "") (String x s) O cur
  = if Ascii.eqb c x then cur :: strings.splitFrom (String c "") s O ""
    else strings.splitFrom (String c "") s O (cur ++ String x "").
Proof. cbn. destruct (Ascii.eqb c x); [destruct s |]; reflexivity. Qed.

Lemma splitFrom_part (c : ascii) (p : string) :
  c ∉ list_ascii_of_string p ->
  forall rest cur,
    strings.splitFrom (String c "") (p ++ rest) O cur
    = strings.splitFrom (String c "") rest O (cur ++ p).
Proof.
  induction p as [| x p IH]; intros Hno rest cur.
  - by rewrite str_app_nil_l, str_app_nil_r.
  - rewrite str_app_cons, splitFrom_byte.
    destruct (Ascii.eqb_spec c x) as [-> | Hne].
    + exfalso. apply Hno. simpl. left.
    + rewrite IH.
      * by rewrite str_app_assoc, str_app_cons, str_app_nil_l.
      * intros Hin. apply Hno. simpl. by right.
Qed.

Lemma splitFrom_Join (c : ascii) (parts : list string) :
  Forall (fun p => c ∉ list_ascii_of_string p) parts ->
  forall p cur,
    c ∉ list_ascii_of_string p ->
    strings.splitFrom (String c "") (strings.Join (p :: parts) (String c "")) O cur
    = (cur ++ p) :: parts.
Proof.
  induction 1 as [| q parts Hq Hparts IH]; intros p cur Hp.
  - cbn [strings.Join]. rewrite <- (str_app_nil_r p) at 1.
    by rewrite splitFrom_part.
  - change (strings.Join (p :: q :: parts) (String c ""))
      with (p ++ String c "" ++ strings.Join (q :: parts) (String c "")).
    rewrite splitFrom_part by exact Hp.
    rewrite str_app_cons, str_app_nil_l, splitFrom_byte, Ascii.eqb_refl.
    by rewrite (IH q "" Hq), str_app_nil_l.
Qed.

Lemma splitFrom_parts (c : ascii) (s : string) :
  forall cur,
    c ∉ list_ascii_of_string cur ->
    Forall (fun p => c ∉ list_ascii_of_string p) (strings.splitFrom (String c "") s O cur)
    /\ strings.splitFrom (String c "") s O cur <> [].
Proof.
  induction s as [| x s IH]; intros cur Hcur.
  - simpl. split; [by constructor | discriminate].
  - rewrite splitFrom_byte. destruct (Ascii.eqb_spec c x) as [-> | Hne].
    + split; [| discriminate]. constructor; [exact Hcur |].
      apply IH. simpl. apply not_elem_of_nil.
    + apply IH. intros Hin.
      assert (Hl : list_ascii_of_string (cur ++ String x "")
                   = (list_ascii_of_string cur ++ [x])%list).
      { clear. induction cur as [| y cur IHc]; [reflexivity |].
        rewrite str_app_cons. simpl. by rewrite IHc. }
      rewrite Hl in Hin. apply elem_of_app in Hin as [Hin | Hin]; [by apply Hcur |].
      apply list_elem_of_singleton in Hin. congruence.
Qed.

Lemma Split_Join_byte (c : ascii) (parts : list string) :
  parts <> [] ->
  Forall (fun p => c ∉ list_ascii_of_string p) parts ->
  strings.Split (strings.Join parts (String c "")) (String c "") = parts.
Proof.
  intros Hne Hall. destruct parts as [| p parts]; [contradiction |].
  inversion Hall as [| ? ? Hp Hparts]; subst.
  unfold strings.Split. by rewrite (splitFrom_Join c parts Hparts p "" Hp), str_app_nil_l.
Qed.

Section composite_props.
Context {text : GoText}.
Variable order : list (Z * string) -> list (Z * string).

(** X26. A composite switch command with a one-byte separator changes one
    field and nothing else: splitting the string it writes gives the fields
    of the string read from the device with the field at the mapping's
    index replaced, so that every other mapping of the same string reads
    after the command what it read before. The field written must not hold
    the separator. *)
Theorem composite_command_changes_one_field
    (m : domain.OIDMapping) (payload cur s : string) (c : ascii) :
  let separator :=
    if decide (domain.CompositeSeparator m = "") then ","
    else domain.CompositeSeparator m in
  separator = String c "" ->
  c ∉ list_ascii_of_string (mqtt.compositeNewValue order payload m) ->
  mqtt.convertCompositePayloadToSNMPValue order (Ret (VString cur)) payload m = Ret s ->
  strings.Split s separator
  = <[Z.to_nat (domain.CompositeIndex m) := mqtt.compositeNewValue order payload m]>
      (strings.Split cur separator)
  /\ forall m' : domain.OIDMapping,
       domain.CompositeSeparator m' = domain.CompositeSeparator m ->
       domain.CompositeIndex m' <> domain.CompositeIndex m ->
       service.extractCompositeValue (VString s) m'
       = service.extractCompositeValue (VString cur) m'.
Proof.
  intros separator Hsep Hnew Hrun.
  unfold mqtt.convertCompositePayloadToSNMPValue in Hrun.
  fold separator in Hrun. cbv zeta in Hrun.
  set (new := mqtt.compositeNewValue order payload m) in *.
  set (parts := strings.Split cur separator) in *.
  destruct (Z.leb_spec (Z.of_nat (length parts)) (domain.CompositeIndex m)) as [| Hlen];
    [discriminate |].
  destruct (Z.ltb_spec (domain.CompositeIndex m) 0) as [| Hpos]; [discriminate |].
  injection Hrun as <-.
  assert (Hparts : Forall (fun p => c ∉ list_ascii_of_string p) parts /\ parts <> []).
  { subst parts. rewrite Hsep. unfold strings.Split.
    apply splitFrom_parts. simpl. apply not_elem_of_nil. }
  destruct Hparts as [Hall Hne].
  assert (Hsplit : strings.Split
                     (strings.Join (<[Z.to_nat (domain.CompositeIndex m) := new]> parts)
                                   separator) separator
                   = <[Z.to_nat (domain.CompositeIndex m) := new]> parts).
  { rewrite Hsep. apply Split_Join_byte.
    - intros Hnil. apply (f_equal length) in Hnil. rewrite length_insert in Hnil.
      destruct parts; [contradiction | discriminate].
    - apply Forall_insert; [exact Hall | exact Hnew]. }
  split; [exact Hsplit |].
  intros m' Hsame Hidx. unfold service.extractCompositeValue.
  rewrite Hsame. fold separator. rewrite Hsplit. fold parts.
  rewrite length_insert.
  destruct (Z.leb_spec (Z.of_nat (length parts)) (domain.CompositeIndex m')); [reflexivity |].
  destruct (Z.ltb_spec (domain.CompositeIndex m') 0) as [| Hpos']; [reflexivity |].
  rewrite list_lookup_insert_ne by lia. reflexivity.
Qed.

End composite_props.

Lemma composite_command_changes_one_field_witness :
  @mqtt.convertCompositePayloadToSNMPValue (fun entries => entries)
     (Ret (VString "1,1,0,1,0,1")) "off" sample.outlet2
  = Ret "1,0,0,1,0,1"
  /\ @service.extractCompositeValue sample.text (VString "1,0,0,1,0,1") sample.outlet6
     = @service.extractCompositeValue sample.text (VString "1,1,0,1,0,1") sample.outlet6.
Proof.
  split; [vm_compute; reflexivity |].
  apply (@composite_command_changes_one_field sample.text (fun entries => entries)
           sample.outlet2 "off" "1,1,0,1,0,1" "1,0,0,1,0,1" ","%char).
  - reflexivity.
  - vm_compute. intros Hin.
    repeat (apply elem_of_cons in Hin as [Hin | Hin]; [discriminate |]).
    by apply elem_of_nil in Hin.
  - vm_compute. reflexivity.
  - reflexivity.
  - vm_compute. discriminate.
Defined.

(** ** What the publisher sends *)

Section publish_props.
Context {text : GoText} {case : GoCase}.

(** X25. A binary sensor is published as ON or OFF, and only the device
    class power reads a good value (ok, normal, on, connected, ...) as ON:
    every other class, problem and safety included, is published as the
    class problem is, and opposite to what the class power gives. *)
Theorem only_power_reads_good_as_on (v : value) (deviceClass : string) :
  deviceClass <> "power" ->
  publisher.convertToBinarySensorValue v deviceClass
  = publisher.convertToBinarySensorValue v "problem"
  /\ publisher.convertToBinarySensorValue v deviceClass
     <> publisher.convertToBinarySensorValue v "power"
  /\ (publisher.convertToBinarySensorValue v deviceClass = "ON"
      \/ publisher.convertToBinarySensorValue v deviceClass = "OFF").
Proof.
  intros Hcls. unfold publisher.convertToBinarySensorValue.
  rewrite (bool_decide_eq_false_2 _ Hcls).
  rewrite (bool_decide_eq_true_2 ("problem" = "problem" \/ "problem" = "safety"))
    by (by left).
  rewrite (bool_decide_eq_false_2 ("power" = "problem" \/ "power" = "safety"))
    by (intros [H | H]; discriminate).
  rewrite (bool_decide_eq_true_2 ("power" = "power")) by reflexivity.
  destruct (bool_decide (deviceClass = "problem" \/ deviceClass = "safety"));
    destruct (bool_decide (ToLower (Sprint_v v) ∈ publisher.goodValues));
    (split; [reflexivity | split; [discriminate | auto]]).
Qed.

(** X27. The publisher's lookup finds what the poller transformed: in the
    values as the poller leaves them after storing a binding, the lookup of
    [publishState] for a mapping of the binding's OID, by name and then by
    OID, gives the transformed value and not the raw one, which is stored
    under the name of the binding; as long as no later mapping of that OID
    has the same name and the name is not the name of the binding. *)
Theorem publisher_reads_the_transformed_value
    (oidToMappings : gmap string (list domain.OIDMapping))
    (variable : gosnmp.SnmpPDU) (v tv : value) (values values' : gmap string value)
    (pre post : list domain.OIDMapping) (m : domain.OIDMapping) :
  oidToMappings !! service.normalizeOID (gosnmp.Name variable) = Some (pre ++ m :: post)%list ->
  (forall m', m' ∈ post -> domain.Name m' <> domain.Name m) ->
  domain.Name m <> gosnmp.Name variable ->
  service.transformValue v m = Ret tv ->
  service.storeBinding oidToMappings variable v values = Ret values' ->
  publisher.eventValue values' m = Some tv
  /\ values' !! gosnmp.Name variable = Some v.
Proof.
  intros Hlook Hpost Hname Htv Hrun. unfold service.storeBinding in Hrun.
  rewrite Hlook in Hrun.
  destruct (service.applyMappings v (pre ++ m :: post) values) as [r | |] eqn:Happ;
    simpl in Hrun; try discriminate.
  injection Hrun as <-. split.
  - unfold publisher.eventValue. rewrite lookup_insert_ne by congruence.
    by rewrite (applyMappings_stores _ _ _ _ _ _ _ Happ Hpost Htv).
  - apply lookup_insert_eq.
Qed.

End publish_props.

Lemma only_power_reads_good_as_on_witness :
  @publisher.convertToBinarySensorValue sample.text samples.case (VString "Connected")
                                        "connectivity"
  = "OFF".
Proof.
  destruct (@only_power_reads_good_as_on sample.text samples.case (VString "Connected")
              "connectivity") as (-> & _ & _); [discriminate |].
  vm_compute. reflexivity.
Defined.

Lemma publisher_reads_the_transformed_value_witness :
  publisher.eventValue
    (<[".1.3.6.1.4.1.17420.1.2.9.1.13.0" := VString "1,0"]>
       (<["Outlet 6" := VNil]> (<["Outlet 2" := VString "Off"]> ∅)))
    sample.outlet2
  = Some (VString "Off").
Proof.
  refine (proj1 (@publisher_reads_the_transformed_value sample.text
            (service.buildOidToMappings (Some sample.pduProfile))
            (sample.octets ".1.3.6.1.4.1.17420.1.2.9.1.13.0" "1,0")
            (VString "1,0") (VString "Off") ∅ _ [] [sample.outlet6] sample.outlet2
            _ _ _ _ _)).
  - vm_compute. reflexivity.
  - intros m' Hm'. apply list_elem_of_singleton in Hm' as ->. vm_compute. discriminate.
  - vm_compute. discriminate.
  - vm_compute. reflexivity.
  - vm_compute. reflexivity.
Defined.
